(** * netatmo-trmnl: a shallow embedding of [netatmo-trmnl.py]

  The script reads a Netatmo weather station and an OpenWeather
  forecast, converts units and posts a flat payload of display strings
  to a webhook.  This file embeds the script function by function and
  proves the properties of its specification.

  - Python values parsed from JSON are the inductive [pyval]; a JSON
    object is an association list in insertion order.
  - Python floats are IEEE binary64 numbers, represented by the
    Standard Library's [spec_float] with precision 53 and [emax] 1024.
  - The flat records the script builds itself (station reading,
    forecast reading, merged data, payload) are [gmap string _].
  - Exceptions are values of [exn]; a computation that may raise returns
    a [result]; code that prints, touches the token file or talks to the
    network is a function [world -> result A * world]. *)

From Stdlib Require Import ZArith String Ascii List Bool Lia SpecFloat DecimalString.
From stdpp Require Import base option gmap strings.

Set Warnings "-register-all".

Open Scope Z_scope.

(** ** Binary64 arithmetic as the interpreter performs it *)

Module Float64.

Definition prec : Z := 53.
Definition emax : Z := 1024.

Definition mul := SFmul prec emax.
Definition add := SFadd prec emax.
Definition div := SFdiv prec emax.

Definition is_finite (x : spec_float) : bool :=
  match x with
  | S754_zero _ | S754_finite _ _ _ => true
  | S754_infinity _ | S754_nan => false
  end.

(** The double nearest to an integer (ties to even); infinite when the
    integer is beyond the largest double. *)
Definition of_Z (n : Z) : spec_float := binary_normalize prec emax n 0 false.

(** The double nearest to the exact quotient [a / b]. *)
Definition of_ratio (a : Z) (b : positive) : spec_float :=
  match a with
  | Z0 => S754_zero false
  | Zpos p => div (S754_finite false p 0) (S754_finite false b 0)
  | Zneg p => div (S754_finite true p 0) (S754_finite false b 0)
  end.

(** The double denoted by the decimal literal [d * 10^e10]. *)
Definition of_decimal (d e10 : Z) : spec_float :=
  match e10 with
  | Zneg p => of_ratio d (Pos.pow 10 p)
  | _ => of_Z (d * 10 ^ e10)
  end.

(** [n / d] rounded to the nearest integer, ties to even, for [0 <= n]. *)
Definition div_half_even (n : Z) (d : positive) : Z :=
  let q := n / Zpos d in
  let r := n mod Zpos d in
  match 2 * r ?= Zpos d with
  | Lt => q
  | Gt => q + 1
  | Eq => if Z.even q then q else q + 1
  end.

(** The magnitude [m * 2^e * 10^k] rounded to the nearest integer, ties
    to even: the exact value of the double, not an approximation. *)
Definition scaled_half_even (m : positive) (e k : Z) : Z :=
  let num := Zpos m * (if 0 <=? e then 2 ^ e else 1) * (if 0 <=? k then 10 ^ k else 1) in
  let den := (if 0 <=? e then 1 else 2 ^ (- e)) * (if 0 <=? k then 1 else 10 ^ (- k)) in
  div_half_even num (Z.to_pos den).

Definition signed (s : bool) (n : Z) : Z := if s then - n else n.

(** [round(x)] of a finite non-zero double: an integer. *)
Definition to_Z_half_even (s : bool) (m : positive) (e : Z) : Z :=
  signed s (scaled_half_even m e 0).

(** [round(x, nd)] on a finite double: the decimal with [nd] places
    nearest to the exact value of [x] (ties to even), read back as the
    nearest double.  The result is infinite when it overflows, which the
    interpreter reports as an exception. *)
Definition round_digits (x : spec_float) (nd : Z) : spec_float :=
  match x with
  | S754_finite s m e =>
      if 323 <? nd then x
      else if nd <? -308 then S754_zero s
      else
        let k := scaled_half_even m e nd in
        if k =? 0 then S754_zero s
        else of_decimal (signed s k) (- nd)
  | _ => x
  end.

(** *** The shortest decimal that reads back as the same double *)

Definition string_of_Z (n : Z) : string := NilZero.string_of_int (Z.to_int n).

Definition digits10 (n : Z) : Z := Z.of_nat (String.length (string_of_Z n)).

(** [w] with [10^(w-1) <= m * 2^e < 10^w]. *)
Definition decimal_exponent (m : positive) (e : Z) : Z :=
  match e with
  | Zneg p => digits10 (Zpos m * 5 ^ Zpos p) + e
  | _ => digits10 (Zpos m * 2 ^ e)
  end.

Definition same_double (x y : spec_float) : bool :=
  match x, y with
  | S754_finite _ mx ex, S754_finite _ my ey => Pos.eqb mx my && Z.eqb ex ey
  | _, _ => false
  end.

(** The [p]-digit decimals just below and just above [m * 2^e], as
    mantissas at the decimal exponent [q]; the better of those that read
    back as the double, if any. *)
Definition candidate (m : positive) (e : Z) (p : Z) : option (Z * Z) :=
  let q := decimal_exponent m e - p in
  let num := Zpos m * (if 0 <=? e then 2 ^ e else 1) * (if 0 <=? q then 1 else 10 ^ (- q)) in
  let den := (if 0 <=? e then 1 else 2 ^ (- e)) * (if 0 <=? q then 10 ^ q else 1) in
  let lo := num / den in
  let hi := lo + 1 in
  let x := S754_finite false m e in
  let lo_ok := same_double (of_decimal lo q) x in
  let hi_ok := same_double (of_decimal hi q) x in
  match lo_ok, hi_ok with
  | true, false => Some (lo, q)
  | false, true => Some (hi, q)
  | false, false => None
  | true, true =>
      match 2 * (num mod den) ?= den with
      | Lt => Some (lo, q)
      | Gt => Some (hi, q)
      | Eq => Some (if Z.even lo then lo else hi, q)
      end
  end.

Fixpoint shortest_from (fuel : nat) (m : positive) (e : Z) (p : Z) : Z * Z :=
  match fuel with
  | O => (scaled_half_even m e (17 - decimal_exponent m e), decimal_exponent m e - 17)
  | S fuel' =>
      match candidate m e p with
      | Some dq => dq
      | None => shortest_from fuel' m e (p + 1)
      end
  end.

Fixpoint strip_zeros (fuel : nat) (d q : Z) : Z * Z :=
  match fuel with
  | O => (d, q)
  | S fuel' => if (d mod 10 =? 0) && (0 <? d) then strip_zeros fuel' (d / 10) (q + 1) else (d, q)
  end.

(** Digits and decimal-point position of the shortest representation:
    the value is [0.digits * 10^decpt]. *)
Definition shortest_digits (m : positive) (e : Z) : string * Z :=
  let '(d, q) := shortest_from 17 m e 1 in
  let '(d, q) := strip_zeros 20 d q in
  let ds := string_of_Z d in
  (ds, Z.of_nat (String.length ds) + q).

Fixpoint zeros (n : nat) : string :=
  match n with O => EmptyString | S n' => String "0" (zeros n') end.

Definition exponent_suffix (x : Z) : string :=
  let a := string_of_Z (Z.abs x) in
  String.append (if x <? 0 then "e-" else "e+")
    (if Z.abs x <? 10 then String "0" a else a).

(** [repr(x)] of a float, which is what [str(x)] and [f"{x}"] give. *)
Definition repr (x : spec_float) : string :=
  match x with
  | S754_nan => "nan"
  | S754_infinity s => if s then "-inf" else "inf"
  | S754_zero s => if s then "-0.0" else "0.0"
  | S754_finite s m e =>
      let '(ds, decpt) := shortest_digits m e in
      let nd := Z.of_nat (String.length ds) in
      let body :=
        if (decpt <=? -4) || (16 <? decpt) then
          let frac := String.substring 1 (String.length ds - 1) ds in
          String.append (String.substring 0 1 ds)
            (String.append (if (String.length frac =? 0)%nat then "" else String "." frac)
               (exponent_suffix (decpt - 1)))
        else if decpt <=? 0 then
          String.append "0." (String.append (zeros (Z.to_nat (- decpt))) ds)
        else if nd <=? decpt then
          String.append ds (String.append (zeros (Z.to_nat (decpt - nd))) ".0")
        else
          String.append (String.substring 0 (Z.to_nat decpt) ds)
            (String "." (String.substring (Z.to_nat decpt) (Z.to_nat (nd - decpt)) ds))
      in
      if s then String "-" body else body
  end.

End Float64.

(** ** Python values, exceptions and results *)

(** A value as [json.load] and [response.json()] produce it.  A JSON
    object keeps its members in insertion order, as a [dict] does. *)
Inductive pyval : Type :=
| PyNone
| PyBool (b : bool)
| PyInt (n : Z)
| PyFloat (x : spec_float)
| PyStr (s : string)
| PyList (l : list pyval)
| PyDict (d : list (string * pyval)).

(** The exception classes the script can meet.  [HTTPError] is
    [requests.HTTPError], raised by [raise_for_status] only;
    [RequestException] stands for every other failure of [requests]
    (connection, timeout, invalid URL), none of which is an [HTTPError]. *)
Inductive exn : Type :=
| KeyError
| IndexError
| TypeError
| AttributeError
| ValueError
| OverflowError
| ZeroDivisionError
| OSError
| JSONDecodeError
| HTTPError (status : Z)
| RequestException.

Inductive result (A : Type) : Type :=
| Ok (a : A)
| Raise (e : exn).

Arguments Ok {A} a.
Arguments Raise {A} e.

#[global] Instance result_ret : MRet result := fun A a => Ok a.
#[global] Instance result_bind : MBind result := fun A B f m =>
  match m with
  | Ok a => f a
  | Raise e => Raise e
  end.

Definition is_ok {A} (r : result A) : bool :=
  match r with Ok _ => true | Raise _ => false end.

(** ** The built-in operations the script applies to JSON values *)

Module Py.

Fixpoint assoc (k : string) (d : list (string * pyval)) : option pyval :=
  match d with
  | [] => None
  | (k', v) :: d' => if String.eqb k k' then Some v else assoc k d'
  end.

(** [v[key]] with a string key. *)
Definition getitem (v : pyval) (key : string) : result pyval :=
  match v with
  | PyDict d => match assoc key d with Some x => Ok x | None => Raise KeyError end
  | _ => Raise TypeError
  end.

(** A string is a sequence of code points; it is held here as its UTF-8
    bytes, and a byte [10xxxxxx] continues the code point before it. *)
Definition is_continuation (s : string) : bool :=
  match s with
  | String c _ => let n := nat_of_ascii c in (128 <=? n)%nat && (n <? 192)%nat
  | EmptyString => false
  end.

Fixpoint code_points (s : string) : list string :=
  match s with
  | EmptyString => []
  | String c r =>
      match code_points r with
      | cp :: cps =>
          if is_continuation cp then String c cp :: cps
          else String c EmptyString :: cp :: cps
      | [] => [String c EmptyString]
      end
  end.

(** [v[0]]. *)
Definition first (v : pyval) : result pyval :=
  match v with
  | PyList l => match l with x :: _ => Ok x | [] => Raise IndexError end
  | PyStr s => match code_points s with c :: _ => Ok (PyStr c) | [] => Raise IndexError end
  | PyDict _ => Raise KeyError
  | _ => Raise TypeError
  end.

(** [v.get(key, default)]; [v.get(key)] is [get v key PyNone]. *)
Definition get (v : pyval) (key : string) (default : pyval) : result pyval :=
  match v with
  | PyDict d => Ok (match assoc key d with Some x => x | None => default end)
  | _ => Raise AttributeError
  end.

Definition eq_str (v : pyval) (s : string) : bool :=
  match v with
  | PyStr t => String.eqb t s
  | _ => false
  end.

Fixpoint is_prefix (p s : string) : bool :=
  match p, s with
  | EmptyString, _ => true
  | String a p', String b s' => Ascii.eqb a b && is_prefix p' s'
  | String _ _, EmptyString => false
  end.

Fixpoint is_substring (p s : string) : bool :=
  is_prefix p s || match s with
                   | EmptyString => false
                   | String _ s' => is_substring p s'
                   end.

(** [key in v]. *)
Definition contains (v : pyval) (key : string) : result bool :=
  match v with
  | PyDict d => Ok (match assoc key d with Some _ => true | None => false end)
  | PyList l => Ok (existsb (fun x => eq_str x key) l)
  | PyStr s => Ok (is_substring key s)
  | _ => Raise TypeError
  end.

(** [iter(v)], unfolded to the list of items it yields. *)
Definition iter (v : pyval) : result (list pyval) :=
  match v with
  | PyList l => Ok l
  | PyDict d => Ok (List.map (fun kv => PyStr (fst kv)) d)
  | PyStr s => Ok (List.map PyStr (code_points s))
  | _ => Raise TypeError
  end.

Definition is_zero (x : spec_float) : bool :=
  match x with S754_zero _ => true | _ => false end.

(** Truth value of [v], as [if v] tests it. *)
Definition truthy (v : pyval) : bool :=
  match v with
  | PyNone => false
  | PyBool b => b
  | PyInt n => negb (n =? 0)
  | PyFloat x => negb (is_zero x)
  | PyStr s => negb (String.eqb s EmptyString)
  | PyList l => match l with [] => false | _ => true end
  | PyDict d => match d with [] => false | _ => true end
  end.

(** Numbers: [bool] is a subclass of [int]. *)
Inductive number : Type :=
| NInt (n : Z)
| NFloat (x : spec_float).

Definition as_number (v : pyval) : option number :=
  match v with
  | PyBool b => Some (NInt (Z.b2z b))
  | PyInt n => Some (NInt n)
  | PyFloat x => Some (NFloat x)
  | _ => None
  end.

(** [float(n)]: an [int] too large for a double raises. *)
Definition to_float (n : number) : result spec_float :=
  match n with
  | NFloat x => Ok x
  | NInt z =>
      let x := Float64.of_Z z in
      if Float64.is_finite x then Ok x else Raise OverflowError
  end.

Fixpoint repeat_string (n : nat) (s : string) : string :=
  match n with
  | O => EmptyString
  | S n' => String.append s (repeat_string n' s)
  end.

Fixpoint repeat_list {A} (n : nat) (l : list A) : list A :=
  match n with
  | O => []
  | S n' => l ++ repeat_list n' l
  end.

(** [seq * n] for a string or a list. *)
Definition repeat_seq (v : pyval) (n : Z) : result pyval :=
  match v with
  | PyStr s =>
      if 2 ^ 63 <=? n then Raise OverflowError
      else Ok (PyStr (repeat_string (Z.to_nat n) s))
  | PyList l =>
      if 2 ^ 63 <=? n then Raise OverflowError
      else Ok (PyList (repeat_list (Z.to_nat n) l))
  | _ => Raise TypeError
  end.

(** [a * b]. *)
Definition mul (a b : pyval) : result pyval :=
  match as_number a, as_number b with
  | Some (NInt x), Some (NInt y) => Ok (PyInt (x * y))
  | Some x, Some y =>
      fx ← to_float x; fy ← to_float y; Ok (PyFloat (Float64.mul fx fy))
  | None, Some (NInt n) => repeat_seq a n
  | Some (NInt n), None => repeat_seq b n
  | _, _ => Raise TypeError
  end.

(** [a / b]: true division, correctly rounded also between two ints. *)
Definition truediv (a b : pyval) : result pyval :=
  match as_number a, as_number b with
  | Some (NInt x), Some (NInt y) =>
      if y =? 0 then Raise ZeroDivisionError
      else
        let q :=
          if x =? 0 then S754_zero (y <? 0)
          else Float64.of_ratio (if y <? 0 then - x else x) (Z.to_pos (Z.abs y)) in
        if Float64.is_finite q then Ok (PyFloat q) else Raise OverflowError
  | Some x, Some y =>
      fx ← to_float x; fy ← to_float y;
      if is_zero fy then Raise ZeroDivisionError else Ok (PyFloat (Float64.div fx fy))
  | _, _ => Raise TypeError
  end.

(** [a + b]. *)
Definition add (a b : pyval) : result pyval :=
  match as_number a, as_number b with
  | Some (NInt x), Some (NInt y) => Ok (PyInt (x + y))
  | Some x, Some y =>
      fx ← to_float x; fy ← to_float y; Ok (PyFloat (Float64.add fx fy))
  | _, _ =>
      match a, b with
      | PyStr s, PyStr t => Ok (PyStr (String.append s t))
      | PyList l, PyList m => Ok (PyList (l ++ m))
      | _, _ => Raise TypeError
      end
  end.

(** [round(v, nd)] with an explicit number of digits. *)
Definition round_to (v : pyval) (nd : Z) : result pyval :=
  match as_number v with
  | Some (NFloat x) =>
      let r := Float64.round_digits x nd in
      if Float64.is_finite x && negb (Float64.is_finite r) then Raise OverflowError
      else Ok (PyFloat r)
  | Some (NInt n) =>
      if 0 <=? nd then Ok (PyInt n)
      else
        let p := Z.to_pos (10 ^ (- nd)) in
        Ok (PyInt (Float64.signed (n <? 0) (Float64.div_half_even (Z.abs n) p * Zpos p)))
  | None => Raise TypeError
  end.

(** [round(v)]: the nearest integer, ties to even. *)
Definition round (v : pyval) : result pyval :=
  match as_number v with
  | Some (NInt n) => Ok (PyInt n)
  | Some (NFloat x) =>
      match x with
      | S754_nan => Raise ValueError
      | S754_infinity _ => Raise OverflowError
      | S754_zero _ => Ok (PyInt 0)
      | S754_finite s m e => Ok (PyInt (Float64.to_Z_half_even s m e))
      end
  | None => Raise TypeError
  end.

(** [v < n] for an integer constant [n]; a float is compared exactly. *)
Definition lt (v : pyval) (n : Z) : result bool :=
  match as_number v with
  | Some (NInt x) => Ok (x <? n)
  | Some (NFloat x) =>
      match x with
      | S754_nan => Ok false
      | S754_infinity s => Ok s
      | S754_zero _ => Ok (0 <? n)
      | S754_finite s m e =>
          Ok (if 0 <=? e then Float64.signed s (Zpos m * 2 ^ e) <? n
              else Float64.signed s (Zpos m) <? n * 2 ^ (- e))
      end
  | None => Raise TypeError
  end.

End Py.

(** ** The world a run acts on *)

(** What the token file holds when it exists: a JSON document, text that
    is not JSON, or something that cannot be opened for reading. *)
Inductive file : Type :=
| FileJson (v : pyval)
| FileGarbage
| FileUnreadable.

Inductive http_method : Type := GET | POST.

(** A call of [requests.get] or [requests.post].  [form] is the [data=]
    argument, [params] the query parameters, [bearer] the value formatted
    into the [Authorization] header and [json] the [json=] argument: the
    top-level key and the mapping under it. *)
Record request : Type := Request {
  method : http_method;
  url : pyval;
  form : list (string * pyval);
  params : list (string * pyval);
  bearer : option string;
  json : option (string * gmap string pyval) }.

(** [body] is [None] when the response body is not JSON. *)
Record response : Type := Response {
  status_code : Z;
  body : option pyval }.

Inductive http_outcome : Type :=
| Replied (r : response)
| Failed.

(** A line written by [print]; the last line of a run carries the payload. *)
Inductive printed : Type :=
| Line (s : string)
| LineWith (s : string) (payload : gmap string pyval).

Record world : Type := World {
  token_file : option file;
  disk_writable : bool;
  stdout : list printed;
  sent : list request }.

(** What a run cannot change: the process environment, the servers (an
    answer may depend on the requests sent before), the host's time zone
    as the offset in seconds of local time from UTC at an instant, and the
    interpreter's rendering of a list or dict inside a formatted string. *)
Record env : Type := Env {
  getenv : string -> option string;
  http : list request -> request -> http_outcome;
  utc_offset : Z -> Z;
  repr_container : pyval -> string }.

(** Code with effects: a result, or an exception, and the world after. *)
Definition M (A : Type) : Type := world -> result A * world.

Definition ret {A} (a : A) : M A := fun w => (Ok a, w).

Definition bind {A B} (m : M A) (k : A -> M B) : M B := fun w =>
  match m w with
  | (Ok a, w') => k a w'
  | (Raise e, w') => (Raise e, w')
  end.

Definition lift {A} (r : result A) : M A := fun w => (r, w).

Declare Scope effect_scope.
Delimit Scope effect_scope with M.
Notation "x <- m ;; k" := (bind m (fun x => k))
  (at level 20, m at level 99, k at level 200, only parsing) : effect_scope.
Notation "m ;; k" := (bind m (fun _ => k))
  (at level 100, k at level 200, only parsing, right associativity) : effect_scope.

(** [try: m / except requests.HTTPError: h] *)
Definition except_HTTPError {A} (m h : M A) : M A := fun w =>
  match m w with
  | (Raise (HTTPError _), w') => h w'
  | other => other
  end.

Definition print (s : string) : M unit := fun w =>
  (Ok tt, World (token_file w) (disk_writable w) (stdout w ++ [Line s]) (sent w)).

Definition print_with (s : string) (payload : gmap string pyval) : M unit := fun w =>
  (Ok tt, World (token_file w) (disk_writable w) (stdout w ++ [LineWith s payload]) (sent w)).

Definition raise_for_status (r : response) : result unit :=
  if (400 <=? status_code r) && (status_code r <? 600)
  then Raise (HTTPError (status_code r))
  else Ok tt.

Definition response_json (r : response) : result pyval :=
  match body r with
  | Some v => Ok v
  | None => Raise JSONDecodeError
  end.

Definition env_value (o : option string) : pyval :=
  match o with
  | Some s => PyStr s
  | None => PyNone
  end.

(** ** The script *)

Section Script.

Variable E : env.

(** [f"{v}"]: the text of a value.  (The interpreter's limit on the
    number of digits of an integer conversion is not part of the model.) *)
Definition format (v : pyval) : string :=
  match v with
  | PyNone => "None"
  | PyBool b => if b then "True" else "False"
  | PyInt n => Float64.string_of_Z n
  | PyFloat x => Float64.repr x
  | PyStr s => s
  | PyList _ | PyDict _ => repr_container E v
  end.

(** *** Helpers for unit conversions *)

Definition c_to_f (c : pyval) : result pyval :=
  match c with
  | PyNone => Ok PyNone
  | _ =>
      x ← Py.mul c (PyInt 9);
      y ← Py.truediv x (PyInt 5);
      z ← Py.add y (PyInt 32);
      Py.round_to z 1
  end.

Definition mm_to_in (mm : pyval) : result pyval :=
  match mm with
  | PyNone => Ok PyNone
  | _ =>
      x ← Py.mul mm (PyFloat (Float64.of_decimal 393701 (-7)));
      Py.round_to x 2
  end.

Definition kmh_to_mph (kmh : pyval) : result pyval :=
  match kmh with
  | PyNone => Ok PyNone
  | _ =>
      x ← Py.mul kmh (PyFloat (Float64.of_decimal 621371 (-6)));
      Py.round_to x 1
  end.

(** Whole seconds of a float timestamp: the fraction is rounded to
    microseconds, ties to even, and may carry into the seconds. *)
Definition float_seconds (s : bool) (m : positive) (e : Z) : Z :=
  let whole := if 0 <=? e then Zpos m * 2 ^ e else Zpos m / 2 ^ (- e) in
  let fraction :=
    if 0 <=? e then S754_zero false
    else Float64.of_ratio (Zpos m mod 2 ^ (- e)) (Z.to_pos (2 ^ (- e))) in
  let micros :=
    match Float64.mul fraction (Float64.of_Z 1000000) with
    | S754_finite _ m' e' => Float64.to_Z_half_even false m' e'
    | _ => 0
    end in
  if s then - whole - (if 0 <? micros then 1 else 0)
  else whole + (if 1000000 <=? micros then 1 else 0).

(** The instant [datetime.fromtimestamp] is given, in whole seconds. *)
Definition timestamp_seconds (unix_ts : pyval) : result Z :=
  match Py.as_number unix_ts with
  | Some (Py.NInt n) => Ok n
  | Some (Py.NFloat x) =>
      match x with
      | S754_nan => Raise ValueError
      | S754_infinity _ => Raise OverflowError
      | S754_zero _ => Ok 0
      | S754_finite s m e => Ok (float_seconds s m e)
      end
  | None => Raise TypeError
  end.

Definition two_digits (n : Z) : string :=
  if n <? 10 then String "0" (Float64.string_of_Z n) else Float64.string_of_Z n.

(** [strftime("%-I:%M %p")] of the local time [local] seconds after the
    epoch: hour on the 12-hour clock without padding, minute, AM or PM. *)
Definition strftime_I_M_p (local : Z) : string :=
  let hour := (local mod 86400) / 3600 in
  let minute := (local mod 3600) / 60 in
  let hour12 := if hour mod 12 =? 0 then 12 else hour mod 12 in
  Float64.string_of_Z hour12 +:+ ":" +:+ two_digits minute +:+ " " +:+
  (if hour <? 12 then "AM" else "PM").

(** Converts to HH:MM in the host's local time.  A timestamp outside the
    platform's [time_t] or outside the years 1 to 9999 raises (the class
    of the second exception depends on the platform's [localtime]). *)
Definition format_unix_time (unix_ts : pyval) : result string :=
  t ← timestamp_seconds unix_ts;
  if (t <? - 2 ^ 63) || (2 ^ 63 <=? t) then Raise OverflowError
  else
    let local := t + utc_offset E t in
    if (local <? -62135510400) || (253402300799 <? local) then Raise ValueError
    else Ok (strftime_I_M_p local).

(** *** The token file *)

Definition load_tokens : M pyval := fun w =>
  match token_file w with
  | Some (FileJson v) => (Ok v, w)
  | Some FileGarbage => (Raise JSONDecodeError, w)
  | Some FileUnreadable => (Raise OSError, w)
  | None => (Ok (PyDict []), w)
  end.

Definition save_tokens (tokens : pyval) : M unit := fun w =>
  if disk_writable w
  then (Ok tt, World (Some (FileJson tokens)) (disk_writable w) (stdout w) (sent w))
  else (Raise OSError, w).

(** [requests.get] and [requests.post]: the request is sent, and either
    a response comes back or the call raises. *)
Definition send (r : request) : M response := fun w =>
  let w' := World (token_file w) (disk_writable w) (stdout w) (sent w ++ [r]) in
  match http E (sent w) r with
  | Replied resp => (Ok resp, w')
  | Failed => (Raise RequestException, w')
  end.

(** *** Get Netatmo access token *)

Definition token_url : string := "https://api.netatmo.com/oauth2/token".

Definition refresh_request (refresh_token : pyval) : request :=
  Request POST (PyStr token_url)
    [("grant_type", PyStr "refresh_token");
     ("refresh_token", refresh_token);
     ("client_id", env_value (getenv E "NETATMO_CLIENT_ID"));
     ("client_secret", env_value (getenv E "NETATMO_CLIENT_SECRET"))]
    [] None None.

Definition password_request : request :=
  Request POST (PyStr token_url)
    [("grant_type", PyStr "password");
     ("client_id", env_value (getenv E "NETATMO_CLIENT_ID"));
     ("client_secret", env_value (getenv E "NETATMO_CLIENT_SECRET"));
     ("username", env_value (getenv E "NETATMO_USERNAME"));
     ("password", env_value (getenv E "NETATMO_PASSWORD"));
     ("scope", PyStr "read_station")]
    [] None None.

(** The body of the [try]: [Some token] stands for [return token]. *)
Definition refresh_grant (tokens : pyval) : M (option pyval) :=
  (refresh_token <- lift (Py.getitem tokens "refresh_token");;
   response <- send (refresh_request refresh_token);;
   lift (raise_for_status response);;
   new_tokens <- lift (response_json response);;
   save_tokens new_tokens;;
   access_token <- lift (Py.getitem new_tokens "access_token");;
   ret (Some access_token))%M.

Definition password_grant : M pyval :=
  (print "🔐 Using password login...";;
   response <- send password_request;;
   lift (raise_for_status response);;
   new_tokens <- lift (response_json response);;
   save_tokens new_tokens;;
   lift (Py.getitem new_tokens "access_token"))%M.

Definition get_access_token : M pyval :=
  (tokens <- load_tokens;;
   has_refresh_token <- lift (Py.contains tokens "refresh_token");;
   returned <-
     (if has_refresh_token : bool then
        print "🔄 Using refresh token...";;
        except_HTTPError
          (refresh_grant tokens)
          (print "⚠️ Refresh token failed, falling back to password grant.";;
           ret None)
      else ret None);;
   match returned with
   | Some access_token => ret access_token
   | None => password_grant
   end)%M.

Definition get_air_quality_status (co2 : pyval) : result string :=
  match co2 with
  | PyNone => Ok "Unknown"
  | _ =>
      good ← Py.lt co2 800;
      if good : bool then Ok "Good"
      else
        moderate ← Py.lt co2 1200;
        if moderate : bool then Ok "Moderate" else Ok "Poor"
  end.

(** *** Get weather data from Netatmo *)

Definition station_request (token : pyval) : request :=
  Request GET (PyStr "https://api.netatmo.com/api/getstationsdata")
    [] [] (Some ("Bearer " +:+ format token)) None.

(** [next((m for m in modules if m["type"] == tag), None)] over the
    items of [modules]. *)
Fixpoint next_module (tag : string) (items : list pyval) : result pyval :=
  match items with
  | [] => Ok PyNone
  | m :: rest =>
      type ← Py.getitem m "type";
      if Py.eq_str type tag then Ok m else next_module tag rest
  end.

(** [module["dashboard_data"].get(key)] *)
Definition dashboard (module : pyval) (key : string) : result pyval :=
  d ← Py.getitem module "dashboard_data";
  Py.get d key PyNone.

(** [module["dashboard_data"].get(key) if module else None] *)
Definition dashboard_if (module : pyval) (key : string) : result pyval :=
  if Py.truthy module then dashboard module key else Ok PyNone.

Definition station_reading (data : pyval) : result (gmap string pyval) :=
  body ← Py.getitem data "body";
  devices ← Py.getitem body "devices";
  base ← Py.first devices;
  modules ← Py.getitem base "modules";
  outdoor ← (items ← Py.iter modules; next_module "NAModule1" items);
  wind ← (items ← Py.iter modules; next_module "NAModule2" items);
  rain ← (items ← Py.iter modules; next_module "NAModule3" items);
  indoor_temp_c ← dashboard base "Temperature";
  indoor_humidity ← dashboard base "Humidity";
  co2 ← dashboard base "CO2";
  pressure ← dashboard base "Pressure";
  noise ← dashboard base "Noise";
  outdoor_temp_c ← dashboard_if outdoor "Temperature";
  outdoor_humidity ← dashboard_if outdoor "Humidity";
  rain_1h ← dashboard_if rain "sum_rain_1";
  rain_24h ← dashboard_if rain "sum_rain_24";
  wind_strength ← dashboard_if wind "WindStrength";
  gust_strength ← dashboard_if wind "GustStrength";
  wind_angle ← dashboard_if wind "WindAngle";
  gust_angle ← dashboard_if wind "GustAngle";
  Ok (list_to_map
        [("indoor_temp_c", indoor_temp_c);
         ("indoor_humidity", indoor_humidity);
         ("co2", co2);
         ("pressure", pressure);
         ("noise", noise);
         ("outdoor_temp_c", outdoor_temp_c);
         ("outdoor_humidity", outdoor_humidity);
         ("rain_1h", rain_1h);
         ("rain_24h", rain_24h);
         ("wind_strength", wind_strength);
         ("gust_strength", gust_strength);
         ("wind_angle", wind_angle);
         ("gust_angle", gust_angle)]).

Definition get_weather_data (token : pyval) : M (gmap string pyval) :=
  (response <- send (station_request token);;
   lift (raise_for_status response);;
   data <- lift (response_json response);;
   lift (station_reading data))%M.

(** *** Get OpenWeather forecast *)

Definition forecast_request : request :=
  Request GET (PyStr "https://api.openweathermap.org/data/3.0/onecall")
    []
    [("lat", env_value (getenv E "LAT"));
     ("lon", env_value (getenv E "LON"));
     ("exclude", PyStr "minutely,hourly,alerts");
     ("units", PyStr "imperial");
     ("appid", env_value (getenv E "OPENWEATHER_API_KEY"))]
    None None.

Definition forecast_reading (data : pyval) : result (gmap string pyval) :=
  daily ← Py.getitem data "daily";
  today ← Py.first daily;
  forecast_high ← (t ← Py.getitem today "temp"; x ← Py.getitem t "max"; Py.round x);
  forecast_low ← (t ← Py.getitem today "temp"; x ← Py.getitem t "min"; Py.round x);
  forecast_humidity ← Py.getitem today "humidity";
  forecast_rain_in ← (mm ← Py.get today "rain" (PyInt 0); mm_to_in mm);
  forecast_rain_chance ←
    (pop ← Py.get today "pop" (PyInt 0); x ← Py.mul pop (PyInt 100); Py.round x);
  sunrise ← (t ← Py.getitem today "sunrise"; format_unix_time t);
  sunset ← (t ← Py.getitem today "sunset"; format_unix_time t);
  Ok (list_to_map
        [("forecast_high", forecast_high);
         ("forecast_low", forecast_low);
         ("forecast_humidity", forecast_humidity);
         ("forecast_rain_in", forecast_rain_in);
         ("forecast_rain_chance", forecast_rain_chance);
         ("sunrise", PyStr sunrise);
         ("sunset", PyStr sunset)]).

Definition get_forecast3 : M (gmap string pyval) :=
  (response <- send forecast_request;;
   lift (raise_for_status response);;
   data <- lift (response_json response);;
   lift (forecast_reading data))%M.

(** *** Push data to usetrmnl.com *)

(** [safe = lambda val, suffix="": f"{val}{suffix}" if val is not None else "—"] *)
Definition safe (val : pyval) (suffix : string) : string :=
  match val with
  | PyNone => "—"
  | _ => format val +:+ suffix
  end.

(** [data[key]] on a mapping the script built itself. *)
Definition subscript (data : gmap string pyval) (key : string) : result pyval :=
  match data !! key with
  | Some v => Ok v
  | None => Raise KeyError
  end.

(** [safe(conv(data[key]), suffix)] *)
Definition converted (conv : pyval -> result pyval) (data : gmap string pyval)
    (key suffix : string) : result string :=
  v ← subscript data key;
  x ← conv v;
  Ok (safe x suffix).

(** [safe(data[key], suffix)] *)
Definition plain (data : gmap string pyval) (key suffix : string) : result string :=
  converted Ok data key suffix.

Definition newline : string := String (ascii_of_nat 10) EmptyString.

Definition message (data : gmap string pyval) : result string :=
  outdoor_temp ← converted c_to_f data "outdoor_temp_c" "°F";
  indoor_temp ← converted c_to_f data "indoor_temp_c" "°F";
  outdoor_humidity ← plain data "outdoor_humidity" "%";
  indoor_humidity ← plain data "indoor_humidity" "%";
  wind ← converted kmh_to_mph data "wind_strength" " mph";
  gust ← converted kmh_to_mph data "gust_strength" " mph";
  rain_1h ← converted mm_to_in data "rain_1h" " in";
  rain_24h ← converted mm_to_in data "rain_24h" " in";
  Ok ("🌡️ " +:+ outdoor_temp +:+ " out / " +:+ indoor_temp +:+ " in" +:+ newline +:+
      "💧 " +:+ outdoor_humidity +:+ " out / " +:+ indoor_humidity +:+ " in" +:+ newline +:+
      "🌬️ " +:+ wind +:+ " wind, Gusts " +:+ gust +:+ newline +:+
      "☔ Rain: " +:+ rain_1h +:+ " (1h), " +:+ rain_24h +:+ " (24h)").

Definition merge_variables (data : gmap string pyval) : result (gmap string pyval) :=
  indoor_temp ← converted c_to_f data "indoor_temp_c" "°F";
  outdoor_temp ← converted c_to_f data "outdoor_temp_c" "°F";
  indoor_humidity ← plain data "indoor_humidity" "%";
  outdoor_humidity ← plain data "outdoor_humidity" "%";
  co2 ← plain data "co2" " ppm";
  air_quality ← (v ← subscript data "co2"; get_air_quality_status v);
  pressure ← plain data "pressure" " mbar";
  noise ← plain data "noise" " dB";
  rain_1h ← converted mm_to_in data "rain_1h" " in";
  rain_24h ← converted mm_to_in data "rain_24h" " in";
  wind_speed ← converted kmh_to_mph data "wind_strength" " mph";
  gust_speed ← converted kmh_to_mph data "gust_strength" " mph";
  wind_angle ← plain data "wind_angle" "°";
  gust_angle ← plain data "gust_angle" "°";
  forecast_high ← plain data "forecast_high" "°F";
  forecast_low ← plain data "forecast_low" "°F";
  forecast_humidity ← plain data "forecast_humidity" "%";
  forecast_rain_in ← plain data "forecast_rain_in" " in";
  forecast_rain_chance ← plain data "forecast_rain_chance" "%";
  sunrise ← subscript data "sunrise";
  sunset ← subscript data "sunset";
  message ← message data;
  Ok (list_to_map
        [("indoor_temp", PyStr indoor_temp);
         ("outdoor_temp", PyStr outdoor_temp);
         ("indoor_humidity", PyStr indoor_humidity);
         ("outdoor_humidity", PyStr outdoor_humidity);
         ("co2", PyStr co2);
         ("air_quality", PyStr air_quality);
         ("pressure", PyStr pressure);
         ("noise", PyStr noise);
         ("rain_1h", PyStr rain_1h);
         ("rain_24h", PyStr rain_24h);
         ("wind_speed", PyStr wind_speed);
         ("gust_speed", PyStr gust_speed);
         ("wind_angle", PyStr wind_angle);
         ("gust_angle", PyStr gust_angle);
         ("forecast_high", PyStr forecast_high);
         ("forecast_low", PyStr forecast_low);
         ("forecast_humidity", PyStr forecast_humidity);
         ("forecast_rain_in", PyStr forecast_rain_in);
         ("forecast_rain_chance", PyStr forecast_rain_chance);
         ("sunrise", sunrise);
         ("sunset", sunset);
         ("message", PyStr message)]).

Definition webhook_request (payload : gmap string pyval) : request :=
  Request POST (env_value (getenv E "TERMINAL_WEBHOOK_URL"))
    [] [] None (Some ("merge_variables", payload)).

Definition push_to_terminal (data : gmap string pyval) : M unit :=
  (payload <- lift (merge_variables data);;
   response <- send (webhook_request payload);;
   lift (raise_for_status response);;
   print_with "✅ Sent to Terminal:" payload)%M.

(** *** Main execution *)

(** [{**netatmo, **forecast}]: a key of both takes the forecast's value. *)
Definition combine (netatmo forecast : gmap string pyval) : gmap string pyval :=
  forecast ∪ netatmo.

Definition main : M unit :=
  (token <- get_access_token;;
   netatmo <- get_weather_data token;;
   forecast <- get_forecast3;;
   push_to_terminal (combine netatmo forecast))%M.

End Script.

(** ** Vocabulary of the statements *)

(** Whether a module carries the type tag [tag]. *)
Definition has_type (tag : string) (m : pyval) : bool :=
  match Py.getitem m "type" with
  | Ok t => Py.eq_str t tag
  | Raise _ => false
  end.

(** The keys of a station reading. *)
Definition station_keys : list string :=
  ["indoor_temp_c"; "indoor_humidity"; "co2"; "pressure"; "noise";
   "outdoor_temp_c"; "outdoor_humidity"; "rain_1h"; "rain_24h";
   "wind_strength"; "gust_strength"; "wind_angle"; "gust_angle"].

Definition indoor_keys : list string :=
  ["indoor_temp_c"; "indoor_humidity"; "co2"; "pressure"; "noise"].

Definition outdoor_keys : list string :=
  ["outdoor_temp_c"; "outdoor_humidity"; "rain_1h"; "rain_24h";
   "wind_strength"; "gust_strength"; "wind_angle"; "gust_angle"].

(** The keys of a forecast reading. *)
Definition forecast_keys : list string :=
  ["forecast_high"; "forecast_low"; "forecast_humidity"; "forecast_rain_in";
   "forecast_rain_chance"; "sunrise"; "sunset"].

(** Station key and the dashboard entry of the base station it is read from. *)
Definition indoor_fields : list (string * string) :=
  [("indoor_temp_c", "Temperature"); ("indoor_humidity", "Humidity"); ("co2", "CO2");
   ("pressure", "Pressure"); ("noise", "Noise")].

(** Module type tag, station key and the dashboard entry of that module. *)
Definition module_fields : list (string * string * string) :=
  [("NAModule1", "outdoor_temp_c", "Temperature");
   ("NAModule1", "outdoor_humidity", "Humidity");
   ("NAModule3", "rain_1h", "sum_rain_1");
   ("NAModule3", "rain_24h", "sum_rain_24");
   ("NAModule2", "wind_strength", "WindStrength");
   ("NAModule2", "gust_strength", "GustStrength");
   ("NAModule2", "wind_angle", "WindAngle");
   ("NAModule2", "gust_angle", "GustAngle")].

(** The payload fields built with [safe]: payload field, key of the
    merged data, conversion applied first, and suffix. *)
Definition display_fields : list (string * string * (pyval -> result pyval) * string) :=
  [("indoor_temp", "indoor_temp_c", c_to_f, "°F");
   ("outdoor_temp", "outdoor_temp_c", c_to_f, "°F");
   ("indoor_humidity", "indoor_humidity", Ok, "%");
   ("outdoor_humidity", "outdoor_humidity", Ok, "%");
   ("co2", "co2", Ok, " ppm");
   ("pressure", "pressure", Ok, " mbar");
   ("noise", "noise", Ok, " dB");
   ("rain_1h", "rain_1h", mm_to_in, " in");
   ("rain_24h", "rain_24h", mm_to_in, " in");
   ("wind_speed", "wind_strength", kmh_to_mph, " mph");
   ("gust_speed", "gust_strength", kmh_to_mph, " mph");
   ("wind_angle", "wind_angle", Ok, "°");
   ("gust_angle", "gust_angle", Ok, "°");
   ("forecast_high", "forecast_high", Ok, "°F");
   ("forecast_low", "forecast_low", Ok, "°F");
   ("forecast_humidity", "forecast_humidity", Ok, "%");
   ("forecast_rain_in", "forecast_rain_in", Ok, " in");
   ("forecast_rain_chance", "forecast_rain_chance", Ok, "%")].

(** The data with every key of [keys] set to [None]. *)
Definition make_absent (keys : list string) (data : gmap string pyval) : gmap string pyval :=
  foldr (fun key d => <[key := PyNone]> d) data keys.

(** ** Concrete runs

    A station with an outdoor, a rain and a wind module, a forecast
    without a rain field, and a token server whose answer to the refresh
    grant is a parameter. *)

Module Scenario.

Definition dec (d e10 : Z) : pyval := PyFloat (Float64.of_decimal d e10).

Definition stored_tokens : list (string * pyval) :=
  [("access_token", PyStr "at-1");
   ("refresh_token", PyStr "rt-1");
   ("expires_in", PyInt 10800)].

Definition fresh_tokens : pyval :=
  PyDict [("access_token", PyStr "at-2");
          ("refresh_token", PyStr "rt-2");
          ("expires_in", PyInt 10800)].

Definition base_dashboard : pyval :=
  PyDict [("Temperature", dec 220 (-1)); ("Humidity", PyInt 45); ("CO2", PyInt 650);
          ("Pressure", dec 10152 (-1)); ("Noise", PyInt 38)].

Definition outdoor_module : pyval :=
  PyDict [("type", PyStr "NAModule1");
          ("dashboard_data", PyDict [("Temperature", dec 113 (-1)); ("Humidity", PyInt 80)])].

Definition rain_module : pyval :=
  PyDict [("type", PyStr "NAModule3");
          ("dashboard_data", PyDict [("sum_rain_1", dec 1 (-1)); ("sum_rain_24", dec 25 (-1))])].

Definition wind_module : pyval :=
  PyDict [("type", PyStr "NAModule2");
          ("dashboard_data",
           PyDict [("WindStrength", PyInt 10); ("WindAngle", PyInt 270);
                   ("GustStrength", PyInt 18); ("GustAngle", PyInt 250)])].

Definition station_json (modules : list pyval) : pyval :=
  PyDict [("body",
           PyDict [("devices",
                    PyList [PyDict [("type", PyStr "NAMain");
                                    ("dashboard_data", base_dashboard);
                                    ("modules", PyList modules)]])])].

Definition today_json : list (string * pyval) :=
  [("temp", PyDict [("min", dec 586 (-1)); ("max", dec 752 (-1))]);
   ("humidity", PyInt 60);
   ("pop", dec 42 (-2));
   ("sunrise", PyInt 1700000000);
   ("sunset", PyInt 1700040000)].

Definition forecast_json : pyval :=
  PyDict [("daily", PyList [PyDict today_json])].

Definition grant_type (r : request) : string :=
  match Py.assoc "grant_type" (form r) with
  | Some (PyStr s) => s
  | _ => EmptyString
  end.

Definition server (refresh_reply : http_outcome) (modules : list pyval)
    (_ : list request) (r : request) : http_outcome :=
  if Py.eq_str (url r) token_url then
    if String.eqb (grant_type r) "refresh_token" then refresh_reply
    else Replied (Response 200 (Some fresh_tokens))
  else if Py.eq_str (url r) "https://api.netatmo.com/api/getstationsdata" then
    Replied (Response 200 (Some (station_json modules)))
  else if Py.eq_str (url r) "https://api.openweathermap.org/data/3.0/onecall" then
    Replied (Response 200 (Some forecast_json))
  else Replied (Response 200 None).

Definition variables (name : string) : option string :=
  if String.eqb name "TERMINAL_WEBHOOK_URL" then Some "https://usetrmnl.com/api/custom_plugins/demo"
  else if String.eqb name "NETATMO_CLIENT_ID" then Some "client"
  else if String.eqb name "NETATMO_CLIENT_SECRET" then Some "secret"
  else None.

Definition all_modules : list pyval := [outdoor_module; rain_module; wind_module].

Definition host (refresh_reply : http_outcome) (modules : list pyval) : env :=
  Env variables (server refresh_reply modules) (fun _ => 0) (fun _ => "[...]").

Definition rejected : http_outcome :=
  Replied (Response 400 (Some (PyDict [("error", PyStr "invalid_grant")]))).

Definition refreshed : http_outcome := Replied (Response 200 (Some fresh_tokens)).

Definition first_run : world := World None true [] [].

Definition later_run : world :=
  World (Some (FileJson (PyDict stored_tokens))) true [] [].

(** The usual host: the refresh grant succeeds and every module is there. *)
Definition home : env := host refreshed all_modules.

(** A station without any module. *)
Definition bare : env := host refreshed [].

Definition token : pyval := PyStr "at-2".

(** What the station and the forecast give at [home]. *)
Definition reading : gmap string pyval :=
  list_to_map
    [("indoor_temp_c", dec 220 (-1)); ("indoor_humidity", PyInt 45); ("co2", PyInt 650);
     ("pressure", dec 10152 (-1)); ("noise", PyInt 38);
     ("outdoor_temp_c", dec 113 (-1)); ("outdoor_humidity", PyInt 80);
     ("rain_1h", dec 1 (-1)); ("rain_24h", dec 25 (-1));
     ("wind_strength", PyInt 10); ("gust_strength", PyInt 18);
     ("wind_angle", PyInt 270); ("gust_angle", PyInt 250)].

Definition forecast : gmap string pyval :=
  list_to_map
    [("forecast_high", PyInt 75); ("forecast_low", PyInt 59); ("forecast_humidity", PyInt 60);
     ("forecast_rain_in", PyFloat (S754_zero false)); ("forecast_rain_chance", PyInt 42);
     ("sunrise", PyStr "10:13 PM"); ("sunset", PyStr "9:20 AM")].

Definition after_station : world :=
  World None true [] [station_request home token].

Definition after_forecast : world :=
  World None true [] [station_request home token; forecast_request home].

(** What the station without modules gives, and the payload of that run. *)
Definition bare_reading : gmap string pyval :=
  list_to_map
    [("indoor_temp_c", dec 220 (-1)); ("indoor_humidity", PyInt 45); ("co2", PyInt 650);
     ("pressure", dec 10152 (-1)); ("noise", PyInt 38);
     ("outdoor_temp_c", PyNone); ("outdoor_humidity", PyNone);
     ("rain_1h", PyNone); ("rain_24h", PyNone);
     ("wind_strength", PyNone); ("gust_strength", PyNone);
     ("wind_angle", PyNone); ("gust_angle", PyNone)].

Definition bare_payload : gmap string pyval :=
  list_to_map
    [("indoor_temp", PyStr "71.6°F"); ("outdoor_temp", PyStr "—");
     ("indoor_humidity", PyStr "45%"); ("outdoor_humidity", PyStr "—");
     ("co2", PyStr "650 ppm"); ("air_quality", PyStr "Good");
     ("pressure", PyStr "1015.2 mbar"); ("noise", PyStr "38 dB");
     ("rain_1h", PyStr "—"); ("rain_24h", PyStr "—");
     ("wind_speed", PyStr "—"); ("gust_speed", PyStr "—");
     ("wind_angle", PyStr "—"); ("gust_angle", PyStr "—");
     ("forecast_high", PyStr "75°F"); ("forecast_low", PyStr "59°F");
     ("forecast_humidity", PyStr "60%"); ("forecast_rain_in", PyStr "0.0 in");
     ("forecast_rain_chance", PyStr "42%");
     ("sunrise", PyStr "10:13 PM"); ("sunset", PyStr "9:20 AM");
     ("message",
      PyStr ("🌡️ — out / 71.6°F in" +:+ newline +:+
             "💧 — out / 45% in" +:+ newline +:+
             "🌬️ — wind, Gusts —" +:+ newline +:+
             "☔ Rain: — (1h), — (24h)"))].

End Scenario.

(** ** Further vocabulary *)

(** The keys [push_to_terminal] reads from the merged data. *)
Definition required_keys : list string := station_keys ++ forecast_keys.

(** The keys whose value goes through arithmetic before it is shown. *)
Definition numeric_keys : list string :=
  ["indoor_temp_c"; "outdoor_temp_c"; "co2"; "rain_1h"; "rain_24h";
   "wind_strength"; "gust_strength"].

(** The fields a forecast day must carry; [rain] and [pop] are optional. *)
Definition required_today : list string := ["temp"; "humidity"; "sunrise"; "sunset"].

(** The requests a token acquisition may send, in order. *)
Definition token_traces (E : env) (refresh_token : pyval) : list (list request) :=
  [[]; [password_request E]; [refresh_request E refresh_token];
   [refresh_request E refresh_token; password_request E]].

(** * Properties *)

(** ** Status codes *)

Lemma raise_for_status_error (r : response) :
  400 <= status_code r < 600 -> raise_for_status r = Raise (HTTPError (status_code r)).
Proof.
  intros [Hlo Hhi]. unfold raise_for_status.
  apply Z.leb_le in Hlo. apply Z.ltb_lt in Hhi. rewrite Hlo, Hhi. reflexivity.
Qed.

Lemma raise_for_status_ok (r : response) :
  ~ (400 <= status_code r < 600) -> raise_for_status r = Ok tt.
Proof.
  intros Hok. unfold raise_for_status.
  destruct (400 <=? status_code r) eqn:Hlo; destruct (status_code r <? 600) eqn:Hhi;
    try reflexivity.
  exfalso. apply Hok. split; [apply Z.leb_le | apply Z.ltb_lt]; assumption.
Qed.

Lemma status_dec (r : response) :
  {400 <= status_code r < 600} + {~ (400 <= status_code r < 600)}.
Proof.
  destruct (Z_le_dec 400 (status_code r)); destruct (Z_lt_dec (status_code r) 600);
    solve [left; lia | right; lia].
Qed.

(** ** The token lifecycle *)

(** Unfolds the next [bind] of the goal and exposes the fields of the
    world it continues with. *)
Ltac next := unfold bind at 1; cbn [sent stdout token_file disk_writable fst snd].

Ltac start_refresh Hfile Hfield :=
  unfold get_access_token; next; unfold load_tokens; rewrite Hfile;
  next; unfold lift, Py.contains; rewrite Hfield;
  next; next; unfold print, except_HTTPError, refresh_grant;
  next; unfold lift, Py.getitem at 1; rewrite Hfield;
  next; unfold send; cbn [sent stdout token_file disk_writable].

(** C1.  A stored refresh token whose refresh grant is answered with an
    HTTP error status: the error is caught, the password grant runs, and
    when it succeeds the call returns its access token and the token file
    holds the whole password-grant response. *)
Theorem refresh_failure_falls_back (E : env) (w : world)
    (tokens : list (string * pyval)) (refresh_token : pyval)
    (r1 r2 : response) (new_tokens access_token : pyval)
    (Hfile : token_file w = Some (FileJson (PyDict tokens)))
    (Hfield : Py.assoc "refresh_token" tokens = Some refresh_token)
    (Hrefresh : http E (sent w) (refresh_request E refresh_token) = Replied r1)
    (Hfail : 400 <= status_code r1 < 600)
    (Hpassword : http E (sent w ++ [refresh_request E refresh_token]) (password_request E)
                 = Replied r2)
    (Hok : ~ (400 <= status_code r2 < 600))
    (Hbody : body r2 = Some new_tokens)
    (Htoken : Py.getitem new_tokens "access_token" = Ok access_token)
    (Hdisk : disk_writable w = true) :
  get_access_token E w =
    (Ok access_token,
     World (Some (FileJson new_tokens)) true
       (stdout w ++ [Line "🔄 Using refresh token...";
                     Line "⚠️ Refresh token failed, falling back to password grant.";
                     Line "🔐 Using password login..."])
       (sent w ++ [refresh_request E refresh_token; password_request E])).
Proof.
  start_refresh Hfile Hfield. rewrite Hrefresh.
  next. rewrite (raise_for_status_error _ Hfail).
  next. unfold print, ret. cbn [sent stdout token_file disk_writable].
  unfold password_grant. next. unfold print. cbn [sent stdout token_file disk_writable].
  next. unfold send. cbn [sent stdout token_file disk_writable]. rewrite Hpassword.
  next. unfold lift. rewrite (raise_for_status_ok _ Hok).
  next. unfold response_json. rewrite Hbody.
  next. unfold save_tokens. cbn [sent stdout token_file disk_writable]. rewrite Hdisk.
  rewrite Htoken, <- !app_assoc. reflexivity.
Qed.

Lemma refresh_failure_falls_back_witness :
  get_access_token (Scenario.host Scenario.rejected Scenario.all_modules) Scenario.later_run =
    (Ok (PyStr "at-2"),
     World (Some (FileJson Scenario.fresh_tokens)) true
       [Line "🔄 Using refresh token...";
        Line "⚠️ Refresh token failed, falling back to password grant.";
        Line "🔐 Using password login..."]
       [refresh_request (Scenario.host Scenario.rejected Scenario.all_modules) (PyStr "rt-1");
        password_request (Scenario.host Scenario.rejected Scenario.all_modules)]).
Proof.
  apply (refresh_failure_falls_back
           (Scenario.host Scenario.rejected Scenario.all_modules) Scenario.later_run
           Scenario.stored_tokens (PyStr "rt-1")
           (Response 400 (Some (PyDict [("error", PyStr "invalid_grant")])))
           (Response 200 (Some Scenario.fresh_tokens))).
  - reflexivity.
  - reflexivity.
  - reflexivity.
  - simpl. lia.
  - reflexivity.
  - simpl. lia.
  - reflexivity.
  - reflexivity.
  - reflexivity.
Defined.

(** C2.  A stored refresh token whose refresh grant succeeds: the whole
    refresh response is written to the token file, its access token is
    returned, and the refresh request is the only request of the call, so
    the password grant is not sent. *)
Theorem refresh_success_skips_password (E : env) (w : world)
    (tokens : list (string * pyval)) (refresh_token : pyval)
    (r : response) (new_tokens access_token : pyval)
    (Hfile : token_file w = Some (FileJson (PyDict tokens)))
    (Hfield : Py.assoc "refresh_token" tokens = Some refresh_token)
    (Hrefresh : http E (sent w) (refresh_request E refresh_token) = Replied r)
    (Hok : ~ (400 <= status_code r < 600))
    (Hbody : body r = Some new_tokens)
    (Htoken : Py.getitem new_tokens "access_token" = Ok access_token)
    (Hdisk : disk_writable w = true) :
  get_access_token E w =
    (Ok access_token,
     World (Some (FileJson new_tokens)) true
       (stdout w ++ [Line "🔄 Using refresh token..."])
       (sent w ++ [refresh_request E refresh_token]))
  /\ (forall q, In q [refresh_request E refresh_token] -> q <> password_request E).
Proof.
  split.
  - start_refresh Hfile Hfield. rewrite Hrefresh.
    next. rewrite (raise_for_status_ok _ Hok).
    next. unfold response_json. rewrite Hbody.
    next. unfold save_tokens. cbn [sent stdout token_file disk_writable]. rewrite Hdisk.
    next. rewrite Htoken. reflexivity.
  - intros q [<- | []]. unfold refresh_request, password_request.
    intros Heq. inversion Heq.
Qed.

Lemma refresh_success_skips_password_witness :
  get_access_token Scenario.home Scenario.later_run =
    (Ok (PyStr "at-2"),
     World (Some (FileJson Scenario.fresh_tokens)) true
       [Line "🔄 Using refresh token..."]
       [refresh_request Scenario.home (PyStr "rt-1")]).
Proof.
  refine (proj1 (refresh_success_skips_password
           Scenario.home Scenario.later_run
           Scenario.stored_tokens (PyStr "rt-1")
           (Response 200 (Some Scenario.fresh_tokens)) Scenario.fresh_tokens (PyStr "at-2")
           _ _ _ _ _ _ _)).
  - reflexivity.
  - reflexivity.
  - reflexivity.
  - simpl. lia.
  - reflexivity.
  - reflexivity.
  - reflexivity.
Defined.

(** Whatever its outcome, the password grant prints its announcement,
    sends the password request and nothing else. *)
Lemma password_grant_trace (E : env) (w : world) :
  exists r file' rest,
    password_grant E w =
      (r, World file' (disk_writable w)
            (stdout w ++ Line "🔐 Using password login..." :: rest)
            (sent w ++ [password_request E])).
Proof.
  unfold password_grant. next. unfold print. cbn [sent stdout token_file disk_writable].
  next. unfold send. cbn [sent stdout token_file disk_writable].
  destruct (http E (sent w) (password_request E)) as [r |].
  2: { eexists _, _, []. reflexivity. }
  next. unfold lift. destruct (raise_for_status r) as [[] | e].
  2: { eexists _, _, []. reflexivity. }
  next. destruct (response_json r) as [new_tokens | e].
  2: { eexists _, _, []. reflexivity. }
  next. unfold save_tokens. cbn [sent stdout token_file disk_writable].
  destruct (disk_writable w).
  2: { eexists _, _, []. reflexivity. }
  cbn [sent stdout token_file disk_writable].
  eexists _, _, []. reflexivity.
Qed.

(** C3.  Without a token file [load_tokens] returns the empty record and
    does not raise; then, and whenever the loaded record has no
    [refresh_token] field, [get_access_token] is the password grant alone:
    the only request of the call is the password request, and the first
    line it prints announces the password login. *)
Theorem no_refresh_token_goes_to_password (E : env) (w : world)
    (tokens : list (string * pyval))
    (Hfile : token_file w = None
             \/ (token_file w = Some (FileJson (PyDict tokens))
                 /\ Py.assoc "refresh_token" tokens = None)) :
  (token_file w = None -> load_tokens w = (Ok (PyDict []), w))
  /\ get_access_token E w = password_grant E w
  /\ sent (snd (get_access_token E w)) = sent w ++ [password_request E]
  /\ exists rest,
       stdout (snd (get_access_token E w))
       = stdout w ++ Line "🔐 Using password login..." :: rest.
Proof.
  assert (Hsame : get_access_token E w = password_grant E w).
  { unfold get_access_token. next. unfold load_tokens.
    destruct Hfile as [Hnone | [Hsome Hfield]].
    - rewrite Hnone. next. unfold lift, Py.contains. cbn [Py.assoc].
      next. unfold ret. reflexivity.
    - rewrite Hsome. next. unfold lift, Py.contains. rewrite Hfield.
      next. unfold ret. reflexivity. }
  split; [| split; [exact Hsame | rewrite Hsame]].
  - intros Hnone. unfold load_tokens. rewrite Hnone. reflexivity.
  - destruct (password_grant_trace E w) as (r & file' & rest & Hrun).
    rewrite Hrun. cbn [snd sent stdout]. split; [reflexivity | exists rest; reflexivity].
Qed.

Lemma no_refresh_token_goes_to_password_witness :
  get_access_token Scenario.home Scenario.first_run
  = password_grant Scenario.home Scenario.first_run.
Proof.
  refine (proj1 (proj2 (no_refresh_token_goes_to_password
                          Scenario.home
                          Scenario.first_run [] _))).
  left. reflexivity.
Defined.

(** C10.  With a stored refresh token, the password grant is sent exactly
    when the refresh grant is answered with an HTTP error status.  A
    refresh response without an [access_token] field (already written to
    the token file by then), a response body that is not JSON, a token
    file that cannot be written and a request that fails without a
    response all end the call with their own exception, after the refresh
    request alone. *)
Theorem only_http_error_falls_back (E : env) (w : world)
    (tokens : list (string * pyval)) (refresh_token : pyval)
    (Hfile : token_file w = Some (FileJson (PyDict tokens)))
    (Hfield : Py.assoc "refresh_token" tokens = Some refresh_token) :
  let refresh := refresh_request E refresh_token in
  let announced := stdout w ++ [Line "🔄 Using refresh token..."] in
  (forall r d,
      http E (sent w) refresh = Replied r ->
      ~ (400 <= status_code r < 600) ->
      body r = Some (PyDict d) ->
      Py.assoc "access_token" d = None ->
      disk_writable w = true ->
      get_access_token E w =
        (Raise KeyError,
         World (Some (FileJson (PyDict d))) true announced (sent w ++ [refresh])))
  /\ (forall r,
      http E (sent w) refresh = Replied r ->
      ~ (400 <= status_code r < 600) ->
      body r = None ->
      get_access_token E w =
        (Raise JSONDecodeError,
         World (token_file w) (disk_writable w) announced (sent w ++ [refresh])))
  /\ (forall r new_tokens,
      http E (sent w) refresh = Replied r ->
      ~ (400 <= status_code r < 600) ->
      body r = Some new_tokens ->
      disk_writable w = false ->
      get_access_token E w =
        (Raise OSError,
         World (token_file w) false announced (sent w ++ [refresh])))
  /\ (http E (sent w) refresh = Failed ->
      get_access_token E w =
        (Raise RequestException,
         World (token_file w) (disk_writable w) announced (sent w ++ [refresh])))
  /\ ((exists r, http E (sent w) refresh = Replied r /\ 400 <= status_code r < 600) ->
      sent (snd (get_access_token E w)) = sent w ++ [refresh; password_request E])
  /\ (~ (exists r, http E (sent w) refresh = Replied r /\ 400 <= status_code r < 600) ->
      sent (snd (get_access_token E w)) = sent w ++ [refresh]).
Proof.
  intros refresh announced. subst refresh announced.
  repeat apply conj.
  - intros r d Hreply Hok Hbody Hmissing Hdisk.
    start_refresh Hfile Hfield. rewrite Hreply.
    next. rewrite (raise_for_status_ok _ Hok).
    next. unfold response_json. rewrite Hbody.
    next. unfold save_tokens. cbn [sent stdout token_file disk_writable]. rewrite Hdisk.
    next. unfold Py.getitem. rewrite Hmissing. reflexivity.
  - intros r Hreply Hok Hbody.
    start_refresh Hfile Hfield. rewrite Hreply.
    next. rewrite (raise_for_status_ok _ Hok).
    next. unfold response_json. rewrite Hbody, ?Hfile. reflexivity.
  - intros r new_tokens Hreply Hok Hbody Hdisk.
    start_refresh Hfile Hfield. rewrite Hreply.
    next. rewrite (raise_for_status_ok _ Hok).
    next. unfold response_json. rewrite Hbody.
    next. unfold save_tokens. cbn [sent stdout token_file disk_writable]. rewrite Hdisk, ?Hfile.
    reflexivity.
  - intros Hfailed.
    start_refresh Hfile Hfield. rewrite Hfailed, ?Hfile. reflexivity.
  - intros (r & Hreply & Herror).
    start_refresh Hfile Hfield. rewrite Hreply.
    next. rewrite (raise_for_status_error _ Herror).
    next. unfold print, ret. cbn [sent stdout token_file disk_writable].
    destruct (password_grant_trace E
                (World (token_file w) (disk_writable w)
                   ((stdout w ++ [Line "🔄 Using refresh token..."]) ++
                    [Line "⚠️ Refresh token failed, falling back to password grant."])
                   (sent w ++ [refresh_request E refresh_token])))
      as (r' & file' & rest & Hrun).
    rewrite Hrun. cbn [snd sent]. rewrite <- app_assoc. reflexivity.
  - intros Hnot.
    start_refresh Hfile Hfield.
    destruct (http E (sent w) (refresh_request E refresh_token)) as [r |] eqn:Hreply;
      [| reflexivity].
    destruct (status_dec r) as [Herror | Hok].
    { exfalso. apply Hnot. exists r. split; [reflexivity | exact Herror]. }
    next. rewrite (raise_for_status_ok _ Hok).
    next. unfold response_json. destruct (body r) as [new_tokens |]; [| reflexivity].
    next. unfold save_tokens. cbn [sent stdout token_file disk_writable].
    destruct (disk_writable w); [| reflexivity].
    next. unfold lift, Py.getitem.
    destruct new_tokens as [| | | | | | d]; try reflexivity.
    destruct (Py.assoc "access_token" d); reflexivity.
Qed.

Lemma only_http_error_falls_back_witness :
  get_access_token
    (Scenario.host (Replied (Response 200 (Some (PyDict [("error", PyStr "maintenance")]))))
       Scenario.all_modules)
    Scenario.later_run
  = (Raise KeyError,
     World (Some (FileJson (PyDict [("error", PyStr "maintenance")]))) true
       [Line "🔄 Using refresh token..."]
       [refresh_request
          (Scenario.host (Replied (Response 200 (Some (PyDict [("error", PyStr "maintenance")]))))
             Scenario.all_modules)
          (PyStr "rt-1")]).
Proof.
  refine (proj1 (only_http_error_falls_back
                   (Scenario.host
                      (Replied (Response 200 (Some (PyDict [("error", PyStr "maintenance")]))))
                      Scenario.all_modules)
                   Scenario.later_run Scenario.stored_tokens (PyStr "rt-1") _ _)
            (Response 200 (Some (PyDict [("error", PyStr "maintenance")])))
            [("error", PyStr "maintenance")] _ _ _ _ _).
  - reflexivity.
  - reflexivity.
  - reflexivity.
  - simpl. lia.
  - reflexivity.
  - reflexivity.
  - reflexivity.
Defined.

(** ** Unit conversions *)

(** C4, as the code has it.  On [None] the three unit conversions
    return [None]: no zero is put in its place and nothing is raised.
    [format_unix_time] has no such case: it takes a timestamp, and on
    [None] it raises [TypeError], in every time zone. *)
Theorem absence_in_absence_out (E : env) :
  c_to_f PyNone = Ok PyNone
  /\ mm_to_in PyNone = Ok PyNone
  /\ kmh_to_mph PyNone = Ok PyNone
  /\ format_unix_time E PyNone = Raise TypeError.
Proof.
  repeat split.
Qed.

(** C4, counterexample.  The fourth function does not return on
    [None]: it raises. *)
Lemma format_unix_time_None_raises :
  format_unix_time Scenario.home PyNone
  = Raise TypeError
  /\ is_ok (format_unix_time Scenario.home PyNone)
     = false.
Proof.
  split; reflexivity.
Qed.

(** C5.  On a number, each conversion is the rounded formula of its
    definition: [round(c * 9 / 5 + 32, 1)], [round(mm * 0.0393701, 2)]
    and [round(kmh * 0.621371, 1)], computed in binary64.  In particular
    0 degrees Celsius give [32.0], 100 mm give [3.94] and 10 km/h give
    [6.2], which print as such. *)
Theorem conversions_round (v : pyval) (n : Py.number)
    (Hnumber : Py.as_number v = Some n) :
  c_to_f v =
    (x ← Py.mul v (PyInt 9); y ← Py.truediv x (PyInt 5); z ← Py.add y (PyInt 32);
     Py.round_to z 1)
  /\ mm_to_in v =
       (x ← Py.mul v (PyFloat (Float64.of_decimal 393701 (-7))); Py.round_to x 2)
  /\ kmh_to_mph v =
       (x ← Py.mul v (PyFloat (Float64.of_decimal 621371 (-6))); Py.round_to x 1)
  /\ c_to_f (PyInt 0) = Ok (PyFloat (Float64.of_decimal 320 (-1)))
  /\ mm_to_in (PyInt 100) = Ok (PyFloat (Float64.of_decimal 394 (-2)))
  /\ kmh_to_mph (PyInt 10) = Ok (PyFloat (Float64.of_decimal 62 (-1)))
  /\ Float64.repr (Float64.of_decimal 320 (-1)) = "32.0"
  /\ Float64.repr (Float64.of_decimal 394 (-2)) = "3.94"
  /\ Float64.repr (Float64.of_decimal 62 (-1)) = "6.2".
Proof.
  split; [| split; [| split]].
  - destruct v; try discriminate Hnumber; reflexivity.
  - destruct v; try discriminate Hnumber; reflexivity.
  - destruct v; try discriminate Hnumber; reflexivity.
  - repeat split; vm_compute; reflexivity.
Qed.

Lemma conversions_round_witness :
  c_to_f (PyFloat (Float64.of_decimal 220 (-1))) =
    (x ← Py.mul (PyFloat (Float64.of_decimal 220 (-1))) (PyInt 9);
     y ← Py.truediv x (PyInt 5); z ← Py.add y (PyInt 32); Py.round_to z 1)
  /\ c_to_f (PyFloat (Float64.of_decimal 220 (-1))) = Ok (PyFloat (Float64.of_decimal 716 (-1))).
Proof.
  split.
  - refine (proj1 (conversions_round (PyFloat (Float64.of_decimal 220 (-1)))
                     (Py.NFloat (Float64.of_decimal 220 (-1))) _)).
    reflexivity.
  - vm_compute. reflexivity.
Defined.

(** ** Inverting a successful computation *)

Lemma Ok_inj {A} (a b : A) : Ok a = Ok b -> a = b.
Proof. intros H. injection H. exact id. Qed.

Lemma bind_Ok_inv {A B} (m : result A) (k : A -> result B) (b : B) :
  (m ≫= k) = Ok b -> exists a, m = Ok a /\ k a = Ok b.
Proof.
  destruct m as [a | e]; intros H; [| discriminate H].
  exists a. split; [reflexivity | exact H].
Qed.

Ltac invert_binds H :=
  repeat (let a := fresh "x" in
          let Ha := fresh "H" a in
          apply bind_Ok_inv in H as (a & Ha & H)).

Lemma bind_M_inv {A B} (m : M A) (k : A -> M B) (w w' : world) (b : B) :
  bind m k w = (Ok b, w') -> exists a w1, m w = (Ok a, w1) /\ k a w1 = (Ok b, w').
Proof.
  unfold bind. destruct (m w) as [[a | e] w1]; intros H; [| discriminate H].
  exists a, w1. split; [reflexivity | exact H].
Qed.

Lemma lift_inv {A} (r : result A) (w w' : world) (a : A) :
  lift r w = (Ok a, w') -> r = Ok a /\ w' = w.
Proof. unfold lift. intros H. inversion H. split; reflexivity. Qed.

Lemma send_inv (E : env) (q : request) (w w' : world) (r : response) :
  send E q w = (Ok r, w') -> http E (sent w) q = Replied r.
Proof.
  unfold send. destruct (http E (sent w) q); intros H; [| discriminate H].
  inversion H. reflexivity.
Qed.

Lemma response_json_inv (r : response) (data : pyval) :
  response_json r = Ok data -> body r = Some data.
Proof.
  unfold response_json. destruct (body r); intros H; [| discriminate H].
  inversion H. reflexivity.
Qed.

(** ** The station reader *)

Lemma get_weather_data_inv (E : env) (token : pyval) (w w' : world)
    (reading : gmap string pyval) :
  get_weather_data E token w = (Ok reading, w') ->
  exists r data,
    http E (sent w) (station_request E token) = Replied r
    /\ body r = Some data
    /\ station_reading data = Ok reading.
Proof.
  unfold get_weather_data. intros H.
  apply bind_M_inv in H as (r & w1 & Hsend & H).
  apply bind_M_inv in H as ([] & w2 & Hstatus & H).
  apply bind_M_inv in H as (data & w3 & Hjson & H).
  apply lift_inv in H as [H _]. apply lift_inv in Hjson as [Hjson _].
  exists r, data.
  split; [exact (send_inv _ _ _ _ _ Hsend) | split; [| exact H]].
  apply response_json_inv. exact Hjson.
Qed.

(** The generator expression stops at the first module carrying the tag;
    a module it returns is a non-empty dict, hence true. *)
Lemma next_module_find (tag : string) (items : list pyval) (m : pyval) :
  next_module tag items = Ok m ->
  match find (has_type tag) items with
  | Some x => m = x /\ Py.truthy x = true
  | None => m = PyNone
  end.
Proof.
  induction items as [| x rest IH]; cbn [next_module find]; intros H.
  - inversion H. reflexivity.
  - apply bind_Ok_inv in H as (t & Ht & H). unfold has_type at 1. rewrite Ht.
    destruct (Py.eq_str t tag).
    + inversion H. subst m. split; [reflexivity |].
      destruct x; try discriminate Ht. destruct d; [discriminate Ht | reflexivity].
    + apply IH. exact H.
Qed.

Lemma dashboard_if_found (m : pyval) (field : string) (v : pyval) :
  Py.truthy m = true -> dashboard_if m field = Ok v -> dashboard m field = Ok v.
Proof. unfold dashboard_if. intros ->. exact id. Qed.

Lemma dashboard_if_absent (field : string) (v : pyval) :
  dashboard_if PyNone field = Ok v -> v = PyNone.
Proof. unfold dashboard_if. cbn [Py.truthy]. intros H. inversion H. reflexivity. Qed.

Lemma station_reading_dom (data : pyval) (reading : gmap string pyval) :
  station_reading data = Ok reading -> dom reading = list_to_set station_keys.
Proof.
  unfold station_reading. intros H. invert_binds H.
  apply Ok_inj in H. subst reading. vm_compute. reflexivity.
Qed.

(** C6, as the code has it.  [get_weather_data] reads the first device
    of the response, takes for each of the three module type tags the
    first module carrying it, and returns thirteen fields: five from the
    base station's dashboard and eight from the modules' dashboards, each
    the dashboard's entry, [None] when the entry or the module is absent. *)
Theorem station_reading_thirteen (E : env) (w w' : world) (token : pyval)
    (reading : gmap string pyval) (r : response) (data base : pyval)
    (others modules : list pyval)
    (Hrun : get_weather_data E token w = (Ok reading, w'))
    (Hreply : http E (sent w) (station_request E token) = Replied r)
    (Hbody : body r = Some data)
    (Hdevices : (b ← Py.getitem data "body"; Py.getitem b "devices")
                = Ok (PyList (base :: others)))
    (Hmodules : Py.getitem base "modules" = Ok (PyList modules)) :
  size reading = 13%nat
  /\ dom reading = list_to_set station_keys
  /\ (forall key field, In (key, field) indoor_fields ->
        exists v, dashboard base field = Ok v /\ reading !! key = Some v)
  /\ (forall tag key field, In (tag, key, field) module_fields ->
        match find (has_type tag) modules with
        | Some m => exists v, dashboard m field = Ok v /\ reading !! key = Some v
        | None => reading !! key = Some PyNone
        end).
Proof.
  apply get_weather_data_inv in Hrun as (r' & data' & Hreply' & Hbody' & Hread).
  rewrite Hreply in Hreply'. inversion Hreply'. subst r'.
  rewrite Hbody in Hbody'. inversion Hbody'. subst data'.
  unfold station_reading in Hread.
  apply bind_Ok_inv in Hread as (b & Hb & Hread).
  apply bind_Ok_inv in Hread as (devices & Hdev & Hread).
  rewrite Hb in Hdevices. cbn [mbind result_bind] in Hdevices.
  rewrite Hdev in Hdevices. inversion Hdevices. subst devices.
  cbn [Py.first] in Hread.
  apply bind_Ok_inv in Hread as (base' & Hbase & Hread). inversion Hbase. subst base'.
  apply bind_Ok_inv in Hread as (modules' & Hmods & Hread).
  rewrite Hmodules in Hmods. inversion Hmods. subst modules'.
  cbn [Py.iter mbind result_bind] in Hread.
  apply bind_Ok_inv in Hread as (outdoor & Houtdoor & Hread).
  apply bind_Ok_inv in Hread as (wind & Hwind & Hread).
  apply bind_Ok_inv in Hread as (rain & Hrain & Hread).
  invert_binds Hread.
  apply Ok_inj in Hread. subst reading.
  apply next_module_find in Houtdoor, Hwind, Hrain.
  split; [vm_compute; reflexivity |].
  split; [vm_compute; reflexivity |].
  split.
  - intros key field Hin. cbn [In indoor_fields] in Hin.
    repeat (destruct Hin as [Hin | Hin];
            [inversion Hin; subst key field; eexists;
             split; [eassumption | vm_compute; reflexivity] |]).
    destruct Hin.
  - intros tag key field Hin. cbn [In module_fields] in Hin.
    repeat (destruct Hin as [Hin | Hin];
            [inversion Hin; subst tag key field;
             match goal with
             | Hf : match find (has_type ?t) modules with _ => _ end
               |- match find (has_type ?t) modules with _ => _ end =>
                 destruct (find (has_type t) modules);
                 [destruct Hf as [-> Htruthy]; eexists; split;
                  [eapply dashboard_if_found; eassumption | vm_compute; reflexivity]
                 | subst;
                   repeat match goal with
                          | Ha : dashboard_if PyNone _ = Ok _ |- _ =>
                              apply dashboard_if_absent in Ha; subst
                          end;
                   vm_compute; reflexivity]
             end |]).
    destruct Hin.
Qed.

Lemma station_reading_thirteen_witness :
  size Scenario.reading = 13%nat
  /\ dom Scenario.reading = list_to_set station_keys.
Proof.
  pose proof (station_reading_thirteen Scenario.home Scenario.first_run
                Scenario.after_station Scenario.token Scenario.reading
                (Response 200 (Some (Scenario.station_json Scenario.all_modules)))
                (Scenario.station_json Scenario.all_modules)
                (PyDict [("type", PyStr "NAMain");
                         ("dashboard_data", Scenario.base_dashboard);
                         ("modules", PyList Scenario.all_modules)])
                [] Scenario.all_modules) as Hthirteen.
  assert (Hrun : get_weather_data Scenario.home Scenario.token Scenario.first_run
                 = (Ok Scenario.reading, Scenario.after_station)).
  { vm_compute. reflexivity. }
  destruct (Hthirteen Hrun eq_refl eq_refl eq_refl eq_refl) as (Hsize & Hdom & _).
  split; [exact Hsize | exact Hdom].
Defined.

(** C6, counterexample.  The reading of a station with all three
    modules has thirteen fields, not eleven. *)
Lemma station_reading_not_eleven :
  get_weather_data Scenario.home Scenario.token Scenario.first_run
  = (Ok Scenario.reading, Scenario.after_station)
  /\ size Scenario.reading = 13%nat
  /\ size Scenario.reading <> 11%nat.
Proof.
  split; [vm_compute; reflexivity |].
  split; [vm_compute; reflexivity | vm_compute; discriminate].
Qed.

(** ** The payload, field by field *)

(** Every field built with [safe] is the rendering of its own key of the
    data, and of nothing else. *)
Lemma merge_variables_fields (E : env) (data payload : gmap string pyval) :
  merge_variables E data = Ok payload ->
  forall field key conv suffix, In (field, key, conv, suffix) display_fields ->
    exists s, converted E conv data key suffix = Ok s /\ payload !! field = Some (PyStr s).
Proof.
  unfold merge_variables, plain. intros H. invert_binds H.
  apply Ok_inj in H. subst payload.
  intros field key conv suffix Hin. cbn [In display_fields] in Hin.
  repeat (destruct Hin as [Hin | Hin];
          [inversion Hin; subst field key conv suffix;
           eexists; split; [eassumption | vm_compute; reflexivity] |]).
  destruct Hin.
Qed.

Lemma converted_inv (E : env) (conv : pyval -> result pyval)
    (data : gmap string pyval) (key suffix s : string) :
  converted E conv data key suffix = Ok s ->
  exists v x, data !! key = Some v /\ conv v = Ok x /\ s = safe E x suffix.
Proof.
  unfold converted, subscript. intros H.
  apply bind_Ok_inv in H as (v & Hv & H).
  apply bind_Ok_inv in H as (x & Hx & H).
  apply Ok_inj in H.
  destruct (data !! key) as [v' |]; [| discriminate Hv]. apply Ok_inj in Hv. subst v'.
  exists v, x. split; [reflexivity | split; [exact Hx | symmetry; exact H]].
Qed.

(** ** The forecast reader *)

Lemma get_forecast3_inv (E : env) (w w' : world) (forecast : gmap string pyval) :
  get_forecast3 E w = (Ok forecast, w') ->
  exists r data,
    http E (sent w) (forecast_request E) = Replied r
    /\ body r = Some data
    /\ forecast_reading E data = Ok forecast.
Proof.
  unfold get_forecast3. intros H.
  apply bind_M_inv in H as (r & w1 & Hsend & H).
  apply bind_M_inv in H as ([] & w2 & Hstatus & H).
  apply bind_M_inv in H as (data & w3 & Hjson & H).
  apply lift_inv in H as [H _]. apply lift_inv in Hjson as [Hjson _].
  exists r, data.
  split; [exact (send_inv _ _ _ _ _ Hsend) | split; [| exact H]].
  apply response_json_inv. exact Hjson.
Qed.

Lemma forecast_reading_dom (E : env) (data : pyval) (forecast : gmap string pyval) :
  forecast_reading E data = Ok forecast -> dom forecast = list_to_set forecast_keys.
Proof.
  unfold forecast_reading. intros H. invert_binds H.
  apply Ok_inj in H. subst forecast. vm_compute. reflexivity.
Qed.

Lemma forecast_reading_sun (E : env) (data : pyval) (forecast : gmap string pyval) :
  forecast_reading E data = Ok forecast ->
  exists sunrise sunset,
    forecast !! "sunrise" = Some (PyStr sunrise) /\ forecast !! "sunset" = Some (PyStr sunset).
Proof.
  unfold forecast_reading. intros H. invert_binds H.
  apply Ok_inj in H. subst forecast.
  eexists _, _. split; vm_compute; reflexivity.
Qed.

(** C7.  The rain volume of the forecast is [mm_to_in] of the provider's
    [rain] value, and of zero when the field is absent, which gives the
    float [0.0] and is published as "0.0 in", not as the sentinel; the
    rain chance is [round(pop * 100)] with [pop] taken as 0 when absent.
    Both are published through [safe]; a [pop] of 0.42 gives the chance
    42, published as "42%". *)
Theorem forecast_rain (E : env) (w w' : world) (forecast : gmap string pyval)
    (r : response) (data : pyval) (today : list (string * pyval))
    (Hrun : get_forecast3 E w = (Ok forecast, w'))
    (Hreply : http E (sent w) (forecast_request E) = Replied r)
    (Hbody : body r = Some data)
    (Htoday : (daily ← Py.getitem data "daily"; Py.first daily) = Ok (PyDict today)) :
  match Py.assoc "rain" today with
  | Some mm => exists x, mm_to_in mm = Ok x /\ forecast !! "forecast_rain_in" = Some x
  | None =>
      mm_to_in (PyInt 0) = Ok (PyFloat (S754_zero false))
      /\ forecast !! "forecast_rain_in" = Some (PyFloat (S754_zero false))
      /\ safe E (PyFloat (S754_zero false)) " in" = "0.0 in"
  end
  /\ (exists x chance,
        Py.mul (default (PyInt 0) (Py.assoc "pop" today)) (PyInt 100) = Ok x
        /\ Py.round x = Ok chance
        /\ forecast !! "forecast_rain_chance" = Some chance)
  /\ (Py.assoc "pop" today = Some (PyFloat (Float64.of_decimal 42 (-2))) ->
      forecast !! "forecast_rain_chance" = Some (PyInt 42)
      /\ safe E (PyInt 42) "%" = "42%")
  /\ (forall netatmo payload,
        merge_variables E (combine netatmo forecast) = Ok payload ->
        exists volume chance,
          forecast !! "forecast_rain_in" = Some volume
          /\ forecast !! "forecast_rain_chance" = Some chance
          /\ payload !! "forecast_rain_in" = Some (PyStr (safe E volume " in"))
          /\ payload !! "forecast_rain_chance" = Some (PyStr (safe E chance "%"))).
Proof.
  apply get_forecast3_inv in Hrun as (r' & data' & Hreply' & Hbody' & Hread).
  rewrite Hreply in Hreply'. inversion Hreply'. subst r'.
  rewrite Hbody in Hbody'. inversion Hbody'. subst data'.
  unfold forecast_reading in Hread.
  apply bind_Ok_inv in Hread as (daily & Hdaily & Hread).
  apply bind_Ok_inv in Hread as (today' & Hfirst & Hread).
  rewrite Hdaily in Htoday. cbn [mbind result_bind] in Htoday.
  rewrite Hfirst in Htoday. apply Ok_inj in Htoday. subst today'.
  apply bind_Ok_inv in Hread as (high & Hhigh & Hread).
  apply bind_Ok_inv in Hread as (low & Hlow & Hread).
  apply bind_Ok_inv in Hread as (humidity & Hhumidity & Hread).
  apply bind_Ok_inv in Hread as (volume & Hvolume & Hread).
  apply bind_Ok_inv in Hread as (chance & Hchance & Hread).
  apply bind_Ok_inv in Hread as (sunrise & Hsunrise & Hread).
  apply bind_Ok_inv in Hread as (sunset & Hsunset & Hread).
  apply Ok_inj in Hread. subst forecast.
  cbn [Py.get mbind result_bind] in Hvolume, Hchance.
  apply bind_Ok_inv in Hchance as (x & Hx & Hchance).
  assert (Hin : (list_to_map
                   [("forecast_high", high); ("forecast_low", low);
                    ("forecast_humidity", humidity); ("forecast_rain_in", volume);
                    ("forecast_rain_chance", chance); ("sunrise", PyStr sunrise);
                    ("sunset", PyStr sunset)] : gmap string pyval)
                !! "forecast_rain_in" = Some volume) by (vm_compute; reflexivity).
  assert (Hch : (list_to_map
                   [("forecast_high", high); ("forecast_low", low);
                    ("forecast_humidity", humidity); ("forecast_rain_in", volume);
                    ("forecast_rain_chance", chance); ("sunrise", PyStr sunrise);
                    ("sunset", PyStr sunset)] : gmap string pyval)
                !! "forecast_rain_chance" = Some chance) by (vm_compute; reflexivity).
  split; [| split; [| split]].
  - destruct (Py.assoc "rain" today) as [mm |].
    + exists volume. split; [exact Hvolume | exact Hin].
    + assert (Hzero : mm_to_in (PyInt 0) = Ok (PyFloat (S754_zero false)))
        by (vm_compute; reflexivity).
      rewrite Hzero in Hvolume. apply Ok_inj in Hvolume. subst volume.
      split; [exact Hzero | split; [exact Hin | vm_compute; reflexivity]].
  - exists x, chance. destruct (Py.assoc "pop" today); cbn [default]; auto.
  - intros Hpop. rewrite Hpop in Hx.
    assert (Hx' : Py.mul (PyFloat (Float64.of_decimal 42 (-2))) (PyInt 100)
                  = Ok (PyFloat (Float64.of_decimal 42 0))) by (vm_compute; reflexivity).
    rewrite Hx' in Hx. apply Ok_inj in Hx. subst x.
    assert (Hround : Py.round (PyFloat (Float64.of_decimal 42 0)) = Ok (PyInt 42))
      by (vm_compute; reflexivity).
    rewrite Hround in Hchance. apply Ok_inj in Hchance. subst chance.
    split; [exact Hch | vm_compute; reflexivity].
  - intros netatmo payload Hpayload.
    exists volume, chance. split; [exact Hin | split; [exact Hch |]].
    pose proof (merge_variables_fields E _ _ Hpayload) as Hfields.
    split.
    + destruct (Hfields "forecast_rain_in" "forecast_rain_in" Ok " in") as (s & Hs & Hlook).
      { cbn [In display_fields]. do 16 right. left. reflexivity. }
      apply converted_inv in Hs as (v & y & Hv & Hy & ->). apply Ok_inj in Hy. subst y.
      unfold combine in Hv. rewrite (lookup_union_Some_l _ _ _ _ Hin) in Hv.
      apply (inj Some) in Hv. subst v. exact Hlook.
    + destruct (Hfields "forecast_rain_chance" "forecast_rain_chance" Ok "%")
        as (s & Hs & Hlook).
      { cbn [In display_fields]. do 17 right. left. reflexivity. }
      apply converted_inv in Hs as (v & y & Hv & Hy & ->). apply Ok_inj in Hy. subst y.
      unfold combine in Hv. rewrite (lookup_union_Some_l _ _ _ _ Hch) in Hv.
      apply (inj Some) in Hv. subst v. exact Hlook.
Qed.

Lemma forecast_rain_witness :
  Scenario.forecast !! "forecast_rain_in" = Some (PyFloat (S754_zero false))
  /\ Scenario.forecast !! "forecast_rain_chance" = Some (PyInt 42)
  /\ safe Scenario.home (PyInt 42) "%" = "42%".
Proof.
  pose proof (forecast_rain Scenario.home Scenario.after_station Scenario.after_forecast
                Scenario.forecast (Response 200 (Some Scenario.forecast_json))
                Scenario.forecast_json Scenario.today_json) as Hrain.
  assert (Hrun : get_forecast3 Scenario.home Scenario.after_station
                 = (Ok Scenario.forecast, Scenario.after_forecast)).
  { vm_compute. reflexivity. }
  destruct (Hrain Hrun eq_refl eq_refl eq_refl) as (Hvolume & _ & Hchance & _).
  cbn [Py.assoc Scenario.today_json String.eqb Ascii.eqb Bool.eqb] in Hvolume.
  destruct Hvolume as (_ & Hvolume & _).
  destruct (Hchance eq_refl) as [Hforty_two Hshown].
  split; [exact Hvolume | split; [exact Hforty_two | exact Hshown]].
Defined.

(** ** The merged mapping and the payload *)

Lemma station_forecast_keys_disjoint :
  (list_to_set station_keys : gset string) ## list_to_set forecast_keys.
Proof.
  apply (bool_decide_unpack _). vm_compute. exact I.
Qed.

Lemma merge_variables_shape (E : env) (data payload : gmap string pyval) :
  merge_variables E data = Ok payload ->
  size payload = 22%nat
  /\ forall k v, payload !! k = Some v ->
       (exists s, v = PyStr s)
       \/ (k = "sunrise" /\ data !! "sunrise" = Some v)
       \/ (k = "sunset" /\ data !! "sunset" = Some v).
Proof.
  unfold merge_variables, plain. intros H. invert_binds H.
  apply Ok_inj in H. subst payload.
  split; [vm_compute; reflexivity |].
  intros k v Hlook.
  apply elem_of_list_to_map_2 in Hlook.
  unfold subscript in *.
  destruct (data !! "sunrise") as [sunrise |]; [| discriminate].
  destruct (data !! "sunset") as [sunset |]; [| discriminate].
  repeat match goal with
         | Hs : Ok _ = Ok _ |- _ => apply Ok_inj in Hs; subst
         end.
  repeat (apply elem_of_cons in Hlook as [Hlook | Hlook];
          [injection Hlook as -> ->; solve [left; eexists; reflexivity | auto] |]).
  apply elem_of_nil in Hlook. destruct Hlook.
Qed.

(** Whatever its outcome, [push_to_terminal] sends nothing when the
    payload cannot be built, and otherwise one request, whose JSON body
    holds the payload under the key [merge_variables]. *)
Lemma push_to_terminal_sends (E : env) (data : gmap string pyval) (w : world) :
  (is_ok (merge_variables E data) = false
   /\ sent (snd (push_to_terminal E data w)) = sent w)
  \/ (exists payload,
        merge_variables E data = Ok payload
        /\ sent (snd (push_to_terminal E data w)) = sent w ++ [webhook_request E payload]
        /\ json (webhook_request E payload) = Some ("merge_variables", payload)).
Proof.
  destruct (merge_variables E data) as [payload | e] eqn:Hpayload.
  - right. exists payload. split; [reflexivity | split; [| reflexivity]].
    unfold push_to_terminal. next. unfold lift. rewrite Hpayload.
    next. unfold send. cbn [sent stdout token_file disk_writable].
    destruct (http E (sent w) (webhook_request E payload)) as [r |]; [| reflexivity].
    next. destruct (raise_for_status r) as [[] | e]; reflexivity.
  - left. split; [reflexivity |].
    unfold push_to_terminal. next. unfold lift. rewrite Hpayload. reflexivity.
Qed.

(** C9.  After a successful station read and forecast read, the two
    key sets are disjoint, so the merged mapping holds every station
    field and every forecast field with its own value; the payload built
    from it has exactly 22 fields, all strings, and it is what the
    webhook request carries under [merge_variables]. *)
Theorem merged_fields_disjoint (E : env) (w w1 w2 : world) (token : pyval)
    (netatmo forecast : gmap string pyval)
    (Hstation : get_weather_data E token w = (Ok netatmo, w1))
    (Hforecast : get_forecast3 E w1 = (Ok forecast, w2)) :
  dom netatmo ## dom forecast
  /\ (forall k v, netatmo !! k = Some v -> combine netatmo forecast !! k = Some v)
  /\ (forall k v, forecast !! k = Some v -> combine netatmo forecast !! k = Some v)
  /\ size (combine netatmo forecast) = 20%nat
  /\ (forall payload,
        merge_variables E (combine netatmo forecast) = Ok payload ->
        size payload = 22%nat
        /\ (forall k v, payload !! k = Some v -> exists s, v = PyStr s)
        /\ sent (snd (push_to_terminal E (combine netatmo forecast) w2))
           = sent w2 ++ [webhook_request E payload]
        /\ json (webhook_request E payload) = Some ("merge_variables", payload)).
Proof.
  apply get_weather_data_inv in Hstation as (r & data & _ & _ & Hstation).
  apply get_forecast3_inv in Hforecast as (r' & data' & _ & _ & Hforecast).
  pose proof (station_reading_dom _ _ Hstation) as Hdom.
  pose proof (forecast_reading_dom _ _ _ Hforecast) as Hdom'.
  assert (Hdisjoint : dom netatmo ## dom forecast).
  { rewrite Hdom, Hdom'. exact station_forecast_keys_disjoint. }
  assert (Hmaps : forecast ##ₘ netatmo).
  { apply map_disjoint_dom. symmetry. exact Hdisjoint. }
  split; [exact Hdisjoint |].
  split; [| split; [| split]].
  - intros k v Hk. unfold combine. apply lookup_union_Some; [exact Hmaps | right; exact Hk].
  - intros k v Hk. unfold combine. apply lookup_union_Some_l. exact Hk.
  - unfold combine. rewrite map_size_disj_union by exact Hmaps.
    rewrite <- !size_dom, Hdom, Hdom'. vm_compute. reflexivity.
  - intros payload Hpayload.
    destruct (merge_variables_shape _ _ _ Hpayload) as [Hsize Hvalues].
    split; [exact Hsize |].
    split.
    + intros k v Hk.
      destruct (forecast_reading_sun _ _ _ Hforecast) as (sunrise & sunset & Hrise & Hset).
      destruct (Hvalues k v Hk) as [Hstr | [[_ Hsun] | [_ Hsun]]]; [exact Hstr | |].
      * unfold combine in Hsun. rewrite (lookup_union_Some_l _ _ _ _ Hrise) in Hsun.
        apply (inj Some) in Hsun. subst v. exists sunrise. reflexivity.
      * unfold combine in Hsun. rewrite (lookup_union_Some_l _ _ _ _ Hset) in Hsun.
        apply (inj Some) in Hsun. subst v. exists sunset. reflexivity.
    + destruct (push_to_terminal_sends E (combine netatmo forecast) w2)
        as [[Hfails _] | (payload' & Hpayload' & Hsent & Hjson)].
      * rewrite Hpayload in Hfails. discriminate Hfails.
      * rewrite Hpayload in Hpayload'. apply Ok_inj in Hpayload'. subst payload'.
        split; [exact Hsent | exact Hjson].
Qed.

Lemma merged_fields_disjoint_witness :
  dom Scenario.reading ## dom Scenario.forecast
  /\ size (combine Scenario.reading Scenario.forecast) = 20%nat.
Proof.
  pose proof (merged_fields_disjoint Scenario.home Scenario.first_run
                Scenario.after_station Scenario.after_forecast Scenario.token
                Scenario.reading Scenario.forecast) as Hmerged.
  assert (Hstation : get_weather_data Scenario.home Scenario.token Scenario.first_run
                     = (Ok Scenario.reading, Scenario.after_station)).
  { vm_compute. reflexivity. }
  assert (Hforecast : get_forecast3 Scenario.home Scenario.after_station
                      = (Ok Scenario.forecast, Scenario.after_forecast)).
  { vm_compute. reflexivity. }
  destruct (Hmerged Hstation Hforecast) as (Hdisjoint & _ & _ & Hsize & _).
  split; [exact Hdisjoint | exact Hsize].
Defined.

(** ** Absent fields in the payload *)

Lemma round_to_not_None (z x : pyval) (nd : Z) :
  Py.round_to z nd = Ok x -> x <> PyNone.
Proof.
  unfold Py.round_to.
  destruct (Py.as_number z) as [[n | f] |]; [| | discriminate].
  - destruct (0 <=? nd); intros H; apply Ok_inj in H; subst x; discriminate.
  - destruct (Float64.is_finite f && negb (Float64.is_finite (Float64.round_digits f nd)));
      intros H; [discriminate H |].
    apply Ok_inj in H. subst x. discriminate.
Qed.

(** A conversion of the payload gives [None] for [None] and for nothing else. *)
Lemma display_conversions (field key : string) (conv : pyval -> result pyval)
    (suffix : string) :
  In (field, key, conv, suffix) display_fields ->
  conv PyNone = Ok PyNone
  /\ forall v x, conv v = Ok x -> v <> PyNone -> x <> PyNone.
Proof.
  intros Hin. cbn [In display_fields] in Hin.
  repeat (destruct Hin as [Hin | Hin];
          [inversion Hin; subst field key conv suffix; split; [reflexivity |];
           intros v x Hx Hv;
           first [ apply Ok_inj in Hx; subst x; exact Hv
                 | destruct v; try (exfalso; apply Hv; reflexivity);
                   cbv beta iota delta [c_to_f mm_to_in kmh_to_mph] in Hx;
                   invert_binds Hx; eapply round_to_not_None; exact Hx ] |]).
  destruct Hin.
Qed.

Lemma safe_absent (E : env) (suffix : string) : safe E PyNone suffix = "—".
Proof. reflexivity. Qed.

Lemma safe_present (E : env) (x : pyval) (suffix : string) :
  x <> PyNone -> safe E x suffix = format E x +:+ suffix.
Proof. destruct x; intros H; try reflexivity. exfalso. apply H. reflexivity. Qed.

Lemma subscript_insert (data : gmap string pyval) (key k : string) (v : pyval) :
  subscript data key = Ok v ->
  exists v', subscript (<[k := PyNone]> data) key = Ok v'
             /\ (key = k -> v' = PyNone) /\ (key <> k -> v' = v).
Proof.
  unfold subscript. intros H.
  destruct (decide (key = k)) as [-> | Hne].
  - exists PyNone. rewrite lookup_insert_eq. split; [reflexivity | split; [reflexivity |]].
    intros Hk. exfalso. apply Hk. reflexivity.
  - exists v. rewrite lookup_insert_ne by (intros Heq; apply Hne; symmetry; exact Heq).
    split; [exact H | split; [| reflexivity]].
    intros Hk. exfalso. apply Hne. exact Hk.
Qed.

(** Making [k] absent turns the fields read from [k] into the sentinel
    and leaves every other field as it was; it never makes one fail. *)
Lemma converted_insert (E : env) (conv : pyval -> result pyval)
    (data : gmap string pyval) (key suffix k s : string) :
  conv PyNone = Ok PyNone ->
  converted E conv data key suffix = Ok s ->
  exists t, converted E conv (<[k := PyNone]> data) key suffix = Ok t
            /\ (key = k -> t = "—") /\ (key <> k -> t = s).
Proof.
  intros Hnone H. unfold converted in *.
  apply bind_Ok_inv in H as (v & Hv & H).
  destruct (subscript_insert data key k v Hv) as (v' & Hv' & Heq & Hne).
  rewrite Hv'. cbn [mbind result_bind].
  destruct (decide (key = k)) as [Hk | Hk].
  - rewrite (Heq Hk), Hnone. cbn [mbind result_bind]. exists "—".
    split; [reflexivity | split; [reflexivity |]].
    intros Hk'. exfalso. apply Hk'. exact Hk.
  - rewrite (Hne Hk). exists s. split; [exact H | split; [| reflexivity]].
    intros Hk'. exfalso. apply Hk. exact Hk'.
Qed.

Lemma air_quality_insert (data : gmap string pyval) (k a : string) :
  (v ← subscript data "co2"; get_air_quality_status v) = Ok a ->
  exists a', (v ← subscript (<[k := PyNone]> data) "co2"; get_air_quality_status v) = Ok a'.
Proof.
  intros H. apply bind_Ok_inv in H as (v & Hv & H).
  destruct (subscript_insert data "co2" k v Hv) as (v' & Hv' & Heq & Hne).
  rewrite Hv'. cbn [mbind result_bind].
  destruct (decide ("co2" = k)) as [Hk | Hk].
  - rewrite (Heq Hk). exists "Unknown". reflexivity.
  - rewrite (Hne Hk). exists a. exact H.
Qed.

Ltac insert_converted E data k :=
  repeat match goal with
         | H : converted E ?conv data ?key ?suffix = Ok ?s |- _ =>
             let t := fresh "t" in
             let Ht := fresh "H" t in
             let Heq := fresh "Heq" in
             let Hne := fresh "Hne" in
             destruct (converted_insert E conv data key suffix k s eq_refl H)
               as (t & Ht & Heq & Hne);
             clear H
         end.

Ltac rewrite_converted E k :=
  repeat match goal with
         | Ht : converted E _ (<[k := PyNone]> _) _ _ = Ok _ |- _ =>
             rewrite Ht; clear Ht; cbn [mbind result_bind]
         end.

Lemma message_insert (E : env) (data : gmap string pyval) (k m : string) :
  message E data = Ok m -> exists m', message E (<[k := PyNone]> data) = Ok m'.
Proof.
  unfold message, plain. intros H. invert_binds H.
  insert_converted E data k. rewrite_converted E k.
  eexists. reflexivity.
Qed.

Lemma merge_variables_insert_ok (E : env) (data payload : gmap string pyval) (k : string) :
  merge_variables E data = Ok payload ->
  exists payload', merge_variables E (<[k := PyNone]> data) = Ok payload'.
Proof.
  unfold merge_variables, plain. intros H. invert_binds H. clear H.
  match goal with
  | Hm : message E data = Ok _ |- _ =>
      destruct (message_insert E data k _ Hm) as (m' & Hm'); clear Hm
  end.
  match goal with
  | Ha : (_ ← subscript data "co2"; _) = Ok _ |- _ =>
      destruct (air_quality_insert data k _ Ha) as (a' & Ha'); clear Ha
  end.
  match goal with
  | Hs : subscript data "sunrise" = Ok _ |- _ =>
      destruct (subscript_insert data "sunrise" k _ Hs) as (sunrise' & Hsunrise' & _); clear Hs
  end.
  match goal with
  | Hs : subscript data "sunset" = Ok _ |- _ =>
      destruct (subscript_insert data "sunset" k _ Hs) as (sunset' & Hsunset' & _); clear Hs
  end.
  insert_converted E data k. rewrite_converted E k.
  rewrite Ha'. cbn [mbind result_bind]. rewrite_converted E k.
  rewrite Hsunrise'. cbn [mbind result_bind]. rewrite Hsunset'. cbn [mbind result_bind].
  rewrite Hm'. cbn [mbind result_bind].
  eexists. reflexivity.
Qed.

Lemma merge_variables_insert (E : env) (data payload : gmap string pyval) (k : string) :
  merge_variables E data = Ok payload ->
  exists payload',
    merge_variables E (<[k := PyNone]> data) = Ok payload'
    /\ forall field key conv suffix, In (field, key, conv, suffix) display_fields ->
         (key = k -> payload' !! field = Some (PyStr "—"))
         /\ (key <> k -> payload' !! field = payload !! field).
Proof.
  intros Hpayload.
  destruct (merge_variables_insert_ok E data payload k Hpayload) as (payload' & Hpayload').
  exists payload'. split; [exact Hpayload' |].
  intros field key conv suffix Hin.
  destruct (merge_variables_fields E _ _ Hpayload _ _ _ _ Hin) as (s & Hs & Hfield).
  destruct (merge_variables_fields E _ _ Hpayload' _ _ _ _ Hin) as (s' & Hs' & Hfield').
  destruct (display_conversions _ _ _ _ Hin) as [Hnone _].
  destruct (converted_insert E conv data key suffix k s Hnone Hs) as (t & Ht & Heq & Hne).
  rewrite Ht in Hs'. apply Ok_inj in Hs'. subst s'.
  rewrite Hfield, Hfield'.
  split; intros Hk; [rewrite (Heq Hk) | rewrite (Hne Hk)]; reflexivity.
Qed.

Lemma merge_variables_absent (E : env) (data payload : gmap string pyval)
    (absent : list string) :
  merge_variables E data = Ok payload ->
  exists payload',
    merge_variables E (make_absent absent data) = Ok payload'
    /\ forall field key conv suffix, In (field, key, conv, suffix) display_fields ->
         (In key absent -> payload' !! field = Some (PyStr "—"))
         /\ (~ In key absent -> payload' !! field = payload !! field).
Proof.
  intros Hpayload. induction absent as [| k rest IH].
  - exists payload. split; [exact Hpayload |].
    intros field key conv suffix _. split; [intros [] | reflexivity].
  - destruct IH as (payload1 & Hpayload1 & Hrest).
    destruct (merge_variables_insert E _ _ k Hpayload1) as (payload2 & Hpayload2 & Hstep).
    exists payload2. split; [exact Hpayload2 |].
    intros field key conv suffix Hin.
    destruct (Hrest _ _ _ _ Hin) as [Hrest_in Hrest_out].
    destruct (Hstep _ _ _ _ Hin) as [Hstep_eq Hstep_ne].
    split.
    + intros Habsent. destruct (decide (key = k)) as [Hk | Hk].
      * apply Hstep_eq. exact Hk.
      * rewrite (Hstep_ne Hk). apply Hrest_in.
        destruct Habsent as [Heq | Hin_rest]; [| exact Hin_rest].
        exfalso. apply Hk. symmetry. exact Heq.
    + intros Habsent.
      assert (Hk : key <> k).
      { intros Heq. apply Habsent. left. symmetry. exact Heq. }
      rewrite (Hstep_ne Hk). apply Hrest_out.
      intros Hin_rest. apply Habsent. right. exact Hin_rest.
Qed.

(** C8.  In a payload that [push_to_terminal] builds, every field made
    with [safe] is the rendering of its own key of the data: the sentinel
    when that key is [None], the converted value followed by the suffix
    otherwise.  Setting any keys to [None] never makes the payload fail;
    it turns the fields of those keys into the sentinel and changes no
    other field, so absent indoor keys leave the outdoor fields as they
    were and absent outdoor keys leave the indoor fields as they were.
    With every outdoor key absent all outdoor fields are the sentinel. *)
Theorem absent_fields_independent (E : env) (data payload : gmap string pyval)
    (Hrun : merge_variables E data = Ok payload) :
  (forall field key conv suffix, In (field, key, conv, suffix) display_fields ->
     exists v x,
       data !! key = Some v
       /\ conv v = Ok x
       /\ payload !! field = Some (PyStr (safe E x suffix))
       /\ (v = PyNone -> safe E x suffix = "—")
       /\ (v <> PyNone -> safe E x suffix = format E x +:+ suffix))
  /\ (forall absent, exists payload',
        merge_variables E (make_absent absent data) = Ok payload'
        /\ forall field key conv suffix, In (field, key, conv, suffix) display_fields ->
             (In key absent -> payload' !! field = Some (PyStr "—"))
             /\ (~ In key absent -> payload' !! field = payload !! field))
  /\ (forall absent, incl absent indoor_keys -> exists payload',
        merge_variables E (make_absent absent data) = Ok payload'
        /\ forall field key conv suffix, In (field, key, conv, suffix) display_fields ->
             In key outdoor_keys -> payload' !! field = payload !! field)
  /\ (forall absent, incl absent outdoor_keys -> exists payload',
        merge_variables E (make_absent absent data) = Ok payload'
        /\ forall field key conv suffix, In (field, key, conv, suffix) display_fields ->
             In key indoor_keys -> payload' !! field = payload !! field)
  /\ ((forall key, In key outdoor_keys -> data !! key = Some PyNone) ->
      forall field key conv suffix, In (field, key, conv, suffix) display_fields ->
        In key outdoor_keys -> payload !! field = Some (PyStr "—")).
Proof.
  assert (Hfields :
            forall field key conv suffix, In (field, key, conv, suffix) display_fields ->
              exists v x,
                data !! key = Some v
                /\ conv v = Ok x
                /\ payload !! field = Some (PyStr (safe E x suffix))
                /\ (v = PyNone -> safe E x suffix = "—")
                /\ (v <> PyNone -> safe E x suffix = format E x +:+ suffix)).
  { intros field key conv suffix Hin.
    destruct (merge_variables_fields E _ _ Hrun _ _ _ _ Hin) as (s & Hs & Hfield).
    apply converted_inv in Hs as (v & x & Hv & Hx & ->).
    destruct (display_conversions _ _ _ _ Hin) as [Hnone Hsome].
    exists v, x. repeat split; try assumption.
    - intros ->. rewrite Hnone in Hx. apply Ok_inj in Hx. subst x. reflexivity.
    - intros Hv'. apply safe_present. exact (Hsome v x Hx Hv'). }
  assert (Hapart : forall key, In key indoor_keys -> In key outdoor_keys -> False).
  { intros key Hindoor Houtdoor. cbn [In indoor_keys outdoor_keys] in Hindoor, Houtdoor.
    repeat (destruct Hindoor as [<- | Hindoor];
            [repeat (destruct Houtdoor as [Heq | Houtdoor]; [discriminate Heq |]);
             exact Houtdoor |]).
    exact Hindoor. }
  split; [exact Hfields |].
  split; [intros absent; exact (merge_variables_absent E data payload absent Hrun) |].
  split; [| split].
  - intros absent Hincl.
    destruct (merge_variables_absent E data payload absent Hrun) as (payload' & Hok & Hsame).
    exists payload'. split; [exact Hok |].
    intros field key conv suffix Hin Houtdoor.
    apply (Hsame _ _ _ _ Hin). intros Habsent.
    exact (Hapart key (Hincl key Habsent) Houtdoor).
  - intros absent Hincl.
    destruct (merge_variables_absent E data payload absent Hrun) as (payload' & Hok & Hsame).
    exists payload'. split; [exact Hok |].
    intros field key conv suffix Hin Hindoor.
    apply (Hsame _ _ _ _ Hin). intros Habsent.
    exact (Hapart key Hindoor (Hincl key Habsent)).
  - intros Hnone field key conv suffix Hin Houtdoor.
    destruct (Hfields _ _ _ _ Hin) as (v & x & Hv & _ & Hfield & Hsentinel & _).
    rewrite (Hnone key Houtdoor) in Hv. apply (inj Some) in Hv. subst v.
    rewrite Hfield, (Hsentinel eq_refl). reflexivity.
Qed.

Lemma absent_fields_independent_witness :
  Scenario.bare_payload !! "outdoor_temp" = Some (PyStr "—")
  /\ Scenario.bare_payload !! "wind_speed" = Some (PyStr "—")
  /\ Scenario.bare_payload !! "indoor_temp" = Some (PyStr "71.6°F").
Proof.
  assert (Hrun : merge_variables Scenario.bare
                   (combine Scenario.bare_reading Scenario.forecast)
                 = Ok Scenario.bare_payload).
  { vm_compute. reflexivity. }
  destruct (absent_fields_independent Scenario.bare _ _ Hrun) as (_ & _ & _ & _ & Houtdoor).
  assert (Hnone : forall key, In key outdoor_keys ->
                    combine Scenario.bare_reading Scenario.forecast !! key = Some PyNone).
  { intros key Hin. cbn [In outdoor_keys] in Hin.
    repeat (destruct Hin as [<- | Hin]; [vm_compute; reflexivity |]). destruct Hin. }
  split; [| split].
  - apply (Houtdoor Hnone "outdoor_temp" "outdoor_temp_c" c_to_f "°F").
    + cbn [In display_fields]. right. left. reflexivity.
    + cbn [In outdoor_keys]. left. reflexivity.
  - apply (Houtdoor Hnone "wind_speed" "wind_strength" kmh_to_mph " mph").
    + cbn [In display_fields]. do 9 right. left. reflexivity.
    + cbn [In outdoor_keys]. do 4 right. left. reflexivity.
  - vm_compute. reflexivity.
Defined.

(** ** The model on known values, and a whole run *)

(** Rounding works on the exact value of the double: 2.675 is stored
    slightly below the tie and rounds down, 0.125 is a tie and goes to
    the even digit, as does 2.5. *)
Example round_is_correctly_rounded :
  Py.round_to (PyFloat (Float64.of_decimal 2675 (-3))) 2
  = Ok (PyFloat (Float64.of_decimal 267 (-2)))
  /\ Py.round_to (PyFloat (Float64.of_decimal 125 (-3))) 2
     = Ok (PyFloat (Float64.of_decimal 12 (-2)))
  /\ Py.round (PyFloat (Float64.of_decimal 25 (-1))) = Ok (PyInt 2)
  /\ Py.round (PyFloat (Float64.of_decimal 35 (-1))) = Ok (PyInt 4).
Proof.
  repeat split; vm_compute; reflexivity.
Qed.

Example repr_is_shortest :
  Float64.repr (Float64.add (Float64.of_decimal 1 (-1)) (Float64.of_decimal 2 (-1)))
  = "0.30000000000000004"
  /\ Float64.repr (Float64.of_decimal 1 16) = "1e+16"
  /\ Float64.repr (Float64.of_decimal 1 (-5)) = "1e-05"
  /\ Float64.repr (Float64.of_decimal 1 23) = "1e+23"
  /\ Float64.repr (Float64.of_decimal 10152 (-1)) = "1015.2".
Proof.
  repeat split; vm_compute; reflexivity.
Qed.

(** An integer too large for a double makes the conversions raise. *)
Example conversion_overflow :
  c_to_f (PyInt (10 ^ 400)) = Raise OverflowError
  /\ mm_to_in (PyInt (10 ^ 400)) = Raise OverflowError
  /\ c_to_f (PyStr "22") = Raise TypeError.
Proof.
  repeat split; vm_compute; reflexivity.
Qed.

(** A first run at a station without modules: password login, station
    read, forecast read, and one webhook request with the payload in
    which the indoor temperature of 22.0 degrees Celsius reads "71.6°F",
    the CO2 level of 650 ppm is "Good" and every outdoor field is the
    sentinel. *)
Example first_run_publishes :
  main Scenario.bare Scenario.first_run =
    (Ok tt,
     World (Some (FileJson Scenario.fresh_tokens)) true
       [Line "🔐 Using password login...";
        LineWith "✅ Sent to Terminal:" Scenario.bare_payload]
       [password_request Scenario.bare;
        station_request Scenario.bare Scenario.token;
        forecast_request Scenario.bare;
        webhook_request Scenario.bare Scenario.bare_payload]).
Proof.
  vm_compute. reflexivity.
Qed.

(** * Further properties *)

(** ** The token file and the token lifecycle *)


Lemma save_tokens_inv (tokens : pyval) (w w' : world) :
  save_tokens tokens w = (Ok tt, w') ->
  disk_writable w = true
  /\ w' = World (Some (FileJson tokens)) true (stdout w) (sent w).
Proof.
  unfold save_tokens. destruct (disk_writable w); intros H; [| discriminate H].
  inversion H. split; reflexivity.
Qed.

Lemma send_world (E : env) (q : request) (w w' : world) (r : response) :
  send E q w = (Ok r, w') ->
  w' = World (token_file w) (disk_writable w) (stdout w) (sent w ++ [q]).
Proof.
  unfold send. destruct (http E (sent w) q); intros H; inversion H. reflexivity.
Qed.


Lemma refresh_grant_inv (E : env) (tokens : pyval) (w w' : world) (returned : option pyval) :
  refresh_grant E tokens w = (Ok returned, w') ->
  exists new_tokens token refresh_token,
    returned = Some token
    /\ Py.getitem new_tokens "access_token" = Ok token
    /\ token_file w' = Some (FileJson new_tokens)
    /\ sent w' = sent w ++ [refresh_request E refresh_token].
Proof.
  unfold refresh_grant. intros H.
  apply bind_M_inv in H as (refresh_token & w1 & Hfield & H).
  apply bind_M_inv in H as (r & w2 & Hsend & H).
  apply bind_M_inv in H as ([] & w3 & Hstatus & H).
  apply bind_M_inv in H as (new_tokens & w4 & Hjson & H).
  apply bind_M_inv in H as ([] & w5 & Hsave & H).
  apply bind_M_inv in H as (token & w6 & Htoken & H).
  apply lift_inv in Hfield as [_ ->]. apply lift_inv in Hstatus as [_ ->].
  apply lift_inv in Hjson as [_ ->]. apply lift_inv in Htoken as [Htoken ->].
  apply send_world in Hsend. apply save_tokens_inv in Hsave as [_ Hsave].
  unfold ret in H. inversion H. subst.
  exists new_tokens, token, refresh_token. cbn [token_file sent]. repeat split.
  exact Htoken.
Qed.

(** The body of the [try] sends the refresh request, or nothing when the
    stored record has no usable [refresh_token]; it prints nothing. *)
Lemma refresh_grant_trace (E : env) (tokens : pyval) (w : world) :
  sent (snd (refresh_grant E tokens w)) = sent w
  \/ exists refresh_token,
       Py.getitem tokens "refresh_token" = Ok refresh_token
       /\ sent (snd (refresh_grant E tokens w)) = sent w ++ [refresh_request E refresh_token].
Proof.
  destruct (Py.getitem tokens "refresh_token") as [refresh_token | e] eqn:Hfield.
  2: { left. unfold refresh_grant. next. unfold lift. rewrite Hfield. reflexivity. }
  right. exists refresh_token. split; [reflexivity |].
  unfold refresh_grant. next. unfold lift. rewrite Hfield.
  next. unfold send. cbn [sent stdout token_file disk_writable].
  destruct (http E (sent w) (refresh_request E refresh_token)) as [r |]; [| reflexivity].
  next. destruct (raise_for_status r) as [[] | e]; [| reflexivity].
  next. destruct (response_json r) as [new_tokens | e]; [| reflexivity].
  next. unfold save_tokens. cbn [sent stdout token_file disk_writable].
  destruct (disk_writable w); [| reflexivity].
  next. destruct (Py.getitem new_tokens "access_token"); reflexivity.
Qed.

Lemma refresh_grant_quiet (E : env) (tokens : pyval) (w : world) :
  stdout (snd (refresh_grant E tokens w)) = stdout w.
Proof.
  unfold refresh_grant. next. unfold lift.
  destruct (Py.getitem tokens "refresh_token") as [refresh_token | e]; [| reflexivity].
  next. unfold send. cbn [sent stdout token_file disk_writable].
  destruct (http E (sent w) (refresh_request E refresh_token)) as [r |]; [| reflexivity].
  next. destruct (raise_for_status r) as [[] | e]; [| reflexivity].
  next. destruct (response_json r) as [new_tokens | e]; [| reflexivity].
  next. unfold save_tokens. cbn [sent stdout token_file disk_writable].
  destruct (disk_writable w); [| reflexivity].
  next. destruct (Py.getitem new_tokens "access_token"); reflexivity.
Qed.




(** The requests and the lines of one token acquisition, whatever its
    outcome. *)
Lemma get_access_token_trace (E : env) (w : world) :
  exists out w' refresh_token requests lines,
    get_access_token E w = (out, w')
    /\ sent w' = sent w ++ requests
    /\ In requests (token_traces E refresh_token)
    /\ stdout w' = stdout w ++ lines.
Proof.
  assert (Hpassword : forall w0 lines0, sent w0 = sent w -> stdout w0 = stdout w ++ lines0 ->
            exists out w' refresh_token requests lines,
              password_grant E w0 = (out, w')
              /\ sent w' = sent w ++ requests
              /\ In requests (token_traces E refresh_token)
              /\ stdout w' = stdout w ++ lines).
  { intros w0 lines0 Hsent Hout.
    destruct (password_grant_trace E w0) as (r & file' & rest & Hrun).
    rewrite Hrun. eexists _, _, PyNone, [password_request E], _.
    split; [reflexivity |]. cbn [sent stdout]. rewrite Hsent, Hout.
    split; [reflexivity | split; [right; left; reflexivity |]].
    rewrite <- app_assoc. reflexivity. }
  assert (Hstill : forall r : result pyval,
            exists out w' refresh_token requests lines,
              (r, w) = (out, w')
              /\ sent w' = sent w ++ requests
              /\ In requests (token_traces E refresh_token)
              /\ stdout w' = stdout w ++ lines).
  { intros r. exists r, w, PyNone, [], []. rewrite !app_nil_r.
    split; [reflexivity | split; [reflexivity | split; [left; reflexivity | reflexivity]]]. }
  unfold get_access_token. unfold bind at 1. unfold load_tokens.
  destruct (token_file w) as [[tokens | |] |] eqn:Hfile; try apply Hstill.
  - unfold bind at 1. unfold lift.
    destruct (Py.contains tokens "refresh_token") as [[|] | e]; try apply Hstill.
    + unfold bind at 1. unfold bind at 1. unfold print. unfold except_HTTPError.
      set (w0 := World (token_file w) (disk_writable w)
                   (stdout w ++ [Line "🔄 Using refresh token..."]) (sent w)).
      pose proof (refresh_grant_trace E tokens w0) as Htrace.
      pose proof (refresh_grant_quiet E tokens w0) as Hquiet.
      destruct (refresh_grant E tokens w0) as [[returned | e] w1] eqn:Hrefresh;
        cbn [snd] in Htrace, Hquiet; subst w0; cbn [sent stdout] in Htrace, Hquiet.
      * apply refresh_grant_inv in Hrefresh
          as (new_tokens & token & refresh_token & -> & _ & _ & Hsent).
        cbn [sent] in Hsent. unfold ret.
        eexists _, _, refresh_token, [refresh_request E refresh_token], _.
        split; [reflexivity |].
        split; [exact Hsent | split; [right; right; left; reflexivity | exact Hquiet]].
      * assert (Hsame : forall failure : exn,
                  exists out w' refresh_token requests lines,
                    (@Raise pyval failure, w1) = (out, w')
                    /\ sent w' = sent w ++ requests
                    /\ In requests (token_traces E refresh_token)
                    /\ stdout w' = stdout w ++ lines).
        { intros failure.
          destruct Htrace as [Hsent | (refresh_token & _ & Hsent)].
          - eexists _, _, PyNone, [], _. rewrite app_nil_r.
            split; [reflexivity |].
            split; [exact Hsent | split; [left; reflexivity | exact Hquiet]].
          - eexists _, _, refresh_token, [refresh_request E refresh_token], _.
            split; [reflexivity |].
            split; [exact Hsent | split; [right; right; left; reflexivity | exact Hquiet]]. }
        destruct e; try apply Hsame.
        unfold bind at 1. unfold print, ret.
        destruct (password_grant_trace E
                    (World (token_file w1) (disk_writable w1)
                       (stdout w1 ++
                        [Line "⚠️ Refresh token failed, falling back to password grant."])
                       (sent w1)))
          as (r & file' & rest & Hrun).
        rewrite Hrun. cbn [sent stdout]. rewrite Hquiet.
        destruct Htrace as [Hsent | (refresh_token & _ & Hsent)]; rewrite Hsent.
        -- eexists _, _, PyNone, [password_request E], _.
           split; [reflexivity |]. cbn [sent stdout].
           split; [reflexivity | split; [right; left; reflexivity |]].
           rewrite <- !app_assoc. reflexivity.
        -- eexists _, _, refresh_token,
             [refresh_request E refresh_token; password_request E], _.
           split; [reflexivity |]. cbn [sent stdout].
           split; [rewrite <- app_assoc; reflexivity |
                   split; [do 3 right; left; reflexivity |]].
           rewrite <- !app_assoc. reflexivity.
    + unfold bind at 1. unfold ret.
      apply (Hpassword w []); [reflexivity | symmetry; apply app_nil_r].
  - unfold bind at 1. unfold lift, Py.contains. cbn [Py.assoc].
    unfold bind at 1. unfold ret.
    apply (Hpassword w []); [reflexivity | symmetry; apply app_nil_r].
Qed.

(** X2.  Whatever happens, one call of [get_access_token] sends nothing,
    the password request, the refresh request, or the refresh request
    followed by the password request: never more than two requests, and
    no grant twice. *)
Theorem token_requests_bounded (E : env) (w : world) :
  exists refresh_token requests,
    sent (snd (get_access_token E w)) = sent w ++ requests
    /\ In requests (token_traces E refresh_token).
Proof.
  destruct (get_access_token_trace E w)
    as (out & w' & refresh_token & requests & lines & Hrun & Hsent & Hin & _).
  rewrite Hrun. exists refresh_token, requests. split; [exact Hsent | exact Hin].
Qed.

(** X3.  A token file that is there but cannot serve ends the call at
    once: text that is not JSON raises [JSONDecodeError], a file that
    cannot be opened raises [OSError], a JSON number, boolean or null
    raises [TypeError].  Nothing is sent or printed and the file stays:
    the password login is a fallback for a failed refresh only. *)
Theorem unusable_token_file (E : env) (w : world) :
  (token_file w = Some FileGarbage ->
   get_access_token E w = (Raise JSONDecodeError, w))
  /\ (token_file w = Some FileUnreadable ->
      get_access_token E w = (Raise OSError, w))
  /\ (forall v,
        token_file w = Some (FileJson v) ->
        match v with
        | PyNone | PyBool _ | PyInt _ | PyFloat _ => True
        | _ => False
        end ->
        get_access_token E w = (Raise TypeError, w)).
Proof.
  split; [| split].
  - intros Hfile. unfold get_access_token. next. unfold load_tokens. rewrite Hfile.
    reflexivity.
  - intros Hfile. unfold get_access_token. next. unfold load_tokens. rewrite Hfile.
    reflexivity.
  - intros v Hfile Hscalar. unfold get_access_token. next. unfold load_tokens.
    rewrite Hfile. next. unfold lift.
    destruct v; try destruct Hscalar; reflexivity.
Qed.

Lemma unusable_token_file_witness :
  get_access_token Scenario.home (World (Some FileGarbage) true [] [])
  = (Raise JSONDecodeError, World (Some FileGarbage) true [] []).
Proof.
  refine (proj1 (unusable_token_file Scenario.home (World (Some FileGarbage) true [] [])) _).
  reflexivity.
Defined.

(** X4.  When the password grant is answered with an error status,
    [get_access_token] raises [HTTPError] with that status and leaves the
    token file as it was.  After a refresh that failed with an error
    status too, the status raised is the password grant's: the refresh
    failure is not reported. *)
Theorem password_failure_propagates (E : env) (w : world) (r2 : response)
    (Herror : 400 <= status_code r2 < 600) :
  (forall tokens,
     token_file w = None
     \/ (token_file w = Some (FileJson (PyDict tokens))
         /\ Py.assoc "refresh_token" tokens = None) ->
     http E (sent w) (password_request E) = Replied r2 ->
     get_access_token E w =
       (Raise (HTTPError (status_code r2)),
        World (token_file w) (disk_writable w)
          (stdout w ++ [Line "🔐 Using password login..."])
          (sent w ++ [password_request E])))
  /\ (forall tokens refresh_token r1,
        token_file w = Some (FileJson (PyDict tokens)) ->
        Py.assoc "refresh_token" tokens = Some refresh_token ->
        http E (sent w) (refresh_request E refresh_token) = Replied r1 ->
        400 <= status_code r1 < 600 ->
        http E (sent w ++ [refresh_request E refresh_token]) (password_request E)
        = Replied r2 ->
        get_access_token E w =
          (Raise (HTTPError (status_code r2)),
           World (token_file w) (disk_writable w)
             (stdout w ++ [Line "🔄 Using refresh token...";
                           Line "⚠️ Refresh token failed, falling back to password grant.";
                           Line "🔐 Using password login..."])
             (sent w ++ [refresh_request E refresh_token; password_request E]))).
Proof.
  split.
  - intros tokens Hfile Hreply.
    assert (Hsame : get_access_token E w = password_grant E w).
    { unfold get_access_token. next. unfold load_tokens.
      destruct Hfile as [Hnone | [Hsome Hfield]].
      - rewrite Hnone. next. unfold lift, Py.contains. cbn [Py.assoc].
        next. unfold ret. reflexivity.
      - rewrite Hsome. next. unfold lift, Py.contains. rewrite Hfield.
        next. unfold ret. reflexivity. }
    rewrite Hsame.
    unfold password_grant. next. unfold print. cbn [sent stdout token_file disk_writable].
    next. unfold send. cbn [sent stdout token_file disk_writable]. rewrite Hreply.
    next. unfold lift. rewrite (raise_for_status_error _ Herror). reflexivity.
  - intros tokens refresh_token r1 Hfile Hfield Hrefresh Hfail Hpassword.
    start_refresh Hfile Hfield. rewrite Hrefresh.
    next. rewrite (raise_for_status_error _ Hfail).
    next. unfold print, ret. cbn [sent stdout token_file disk_writable].
    unfold password_grant. next. unfold print. cbn [sent stdout token_file disk_writable].
    next. unfold send. cbn [sent stdout token_file disk_writable]. rewrite Hpassword.
    next. unfold lift. rewrite (raise_for_status_error _ Herror).
    rewrite <- !app_assoc, ?Hfile. reflexivity.
Qed.

Lemma password_failure_propagates_witness :
  get_access_token
    (Env Scenario.variables
       (fun _ _ => Replied (Response 403 None)) (fun _ => 0) (fun _ => "[...]"))
    Scenario.first_run
  = (Raise (HTTPError 403),
     World None true [Line "🔐 Using password login..."]
       [password_request
          (Env Scenario.variables
             (fun _ _ => Replied (Response 403 None)) (fun _ => 0) (fun _ => "[...]"))]).
Proof.
  refine (proj1 (password_failure_propagates
                   (Env Scenario.variables
                      (fun _ _ => Replied (Response 403 None)) (fun _ => 0) (fun _ => "[...]"))
                   Scenario.first_run (Response 403 None) _) [] _ _).
  - simpl. lia.
  - left. reflexivity.
  - reflexivity.
Defined.

(** ** The readers *)

(** The fields read from a module, for a reading that was produced. *)
Lemma station_reading_modules (data base : pyval) (others modules : list pyval)
    (reading : gmap string pyval) :
  station_reading data = Ok reading ->
  (b ← Py.getitem data "body"; Py.getitem b "devices") = Ok (PyList (base :: others)) ->
  Py.getitem base "modules" = Ok (PyList modules) ->
  forall tag key field, In (tag, key, field) module_fields ->
    match find (has_type tag) modules with
    | Some m => exists v, dashboard m field = Ok v /\ reading !! key = Some v
    | None => reading !! key = Some PyNone
    end.
Proof.
  intros Hread Hdevices Hmodules.
  unfold station_reading in Hread.
  apply bind_Ok_inv in Hread as (b & Hb & Hread).
  apply bind_Ok_inv in Hread as (devices & Hdev & Hread).
  rewrite Hb in Hdevices. cbn [mbind result_bind] in Hdevices.
  rewrite Hdev in Hdevices. apply Ok_inj in Hdevices. subst devices.
  cbn [Py.first] in Hread.
  apply bind_Ok_inv in Hread as (base' & Hbase & Hread). apply Ok_inj in Hbase. subst base'.
  apply bind_Ok_inv in Hread as (modules' & Hmods & Hread).
  rewrite Hmodules in Hmods. apply Ok_inj in Hmods. subst modules'.
  cbn [Py.iter mbind result_bind] in Hread.
  apply bind_Ok_inv in Hread as (outdoor & Houtdoor & Hread).
  apply bind_Ok_inv in Hread as (wind & Hwind & Hread).
  apply bind_Ok_inv in Hread as (rain & Hrain & Hread).
  invert_binds Hread.
  apply Ok_inj in Hread. subst reading.
  apply next_module_find in Houtdoor, Hwind, Hrain.
  intros tag key field Hin. cbn [In module_fields] in Hin.
  repeat (destruct Hin as [Hin | Hin];
          [inversion Hin; subst tag key field;
           match goal with
           | Hf : match find (has_type ?t) modules with _ => _ end
             |- match find (has_type ?t) modules with _ => _ end =>
               destruct (find (has_type t) modules);
               [destruct Hf as [-> Htruthy]; eexists; split;
                [eapply dashboard_if_found; eassumption | vm_compute; reflexivity]
               | subst;
                 repeat match goal with
                        | Ha : dashboard_if PyNone _ = Ok _ |- _ =>
                            apply dashboard_if_absent in Ha; subst
                        end;
                 vm_compute; reflexivity]
           end |]).
  destruct Hin.
Qed.

(** X5.  A module that is installed but carries no usable
    [dashboard_data] (as the station reports a module it cannot reach)
    does not give absent fields: [get_weather_data] raises and returns no
    reading at all. *)
Theorem unreachable_module_fails (E : env) (w : world) (token : pyval)
    (r : response) (data base m : pyval) (others modules : list pyval)
    (tag key field : string) (e : exn)
    (Hreply : http E (sent w) (station_request E token) = Replied r)
    (Hbody : body r = Some data)
    (Hdevices : (b ← Py.getitem data "body"; Py.getitem b "devices")
                = Ok (PyList (base :: others)))
    (Hmodules : Py.getitem base "modules" = Ok (PyList modules))
    (Hfield : In (tag, key, field) module_fields)
    (Hfound : find (has_type tag) modules = Some m)
    (Hmissing : Py.getitem m "dashboard_data" = Raise e) :
  is_ok (fst (get_weather_data E token w)) = false.
Proof.
  destruct (get_weather_data E token w) as [[reading | e'] w'] eqn:Hrun; [| reflexivity].
  exfalso.
  apply get_weather_data_inv in Hrun as (r' & data' & Hreply' & Hbody' & Hread).
  rewrite Hreply in Hreply'. inversion Hreply'. subst r'.
  rewrite Hbody in Hbody'. inversion Hbody'. subst data'.
  pose proof (station_reading_modules _ _ _ _ _ Hread Hdevices Hmodules _ _ _ Hfield)
    as Hmodule.
  rewrite Hfound in Hmodule. destruct Hmodule as (v & Hv & _).
  unfold dashboard in Hv. rewrite Hmissing in Hv. discriminate Hv.
Qed.

Lemma unreachable_module_fails_witness :
  is_ok (fst (get_weather_data
                (Scenario.host Scenario.refreshed [PyDict [("type", PyStr "NAModule1")]])
                Scenario.token Scenario.first_run))
  = false.
Proof.
  apply (unreachable_module_fails
           (Scenario.host Scenario.refreshed [PyDict [("type", PyStr "NAModule1")]])
           Scenario.first_run Scenario.token
           (Response 200
              (Some (Scenario.station_json [PyDict [("type", PyStr "NAModule1")]])))
           (Scenario.station_json [PyDict [("type", PyStr "NAModule1")]])
           (PyDict [("type", PyStr "NAMain");
                    ("dashboard_data", Scenario.base_dashboard);
                    ("modules", PyList [PyDict [("type", PyStr "NAModule1")]])])
           (PyDict [("type", PyStr "NAModule1")])
           [] [PyDict [("type", PyStr "NAModule1")]]
           "NAModule1" "outdoor_temp_c" "Temperature" KeyError).
  - reflexivity.
  - reflexivity.
  - reflexivity.
  - reflexivity.
  - cbn [In module_fields]. left. reflexivity.
  - reflexivity.
  - reflexivity.
Defined.

(** X6.  Only the first device of the response is read: two responses
    with the same first device give the same result, whatever stations
    follow it. *)
Theorem only_first_device (data data' base : pyval) (others others' : list pyval)
    (Hdevices : (b ← Py.getitem data "body"; Py.getitem b "devices")
                = Ok (PyList (base :: others)))
    (Hdevices' : (b ← Py.getitem data' "body"; Py.getitem b "devices")
                 = Ok (PyList (base :: others'))) :
  station_reading data = station_reading data'.
Proof.
  apply bind_Ok_inv in Hdevices as (b & Hb & Hdev).
  apply bind_Ok_inv in Hdevices' as (b' & Hb' & Hdev').
  unfold station_reading.
  rewrite Hb, Hb'. cbn [mbind result_bind].
  rewrite Hdev, Hdev'. cbn [mbind result_bind Py.first].
  reflexivity.
Qed.

Lemma only_first_device_witness :
  station_reading (Scenario.station_json Scenario.all_modules)
  = station_reading
      (PyDict [("body",
                PyDict [("devices",
                         PyList [PyDict [("type", PyStr "NAMain");
                                         ("dashboard_data", Scenario.base_dashboard);
                                         ("modules", PyList Scenario.all_modules)];
                                 PyDict [("type", PyStr "NAMain")]])])]).
Proof.
  apply (only_first_device _ _
           (PyDict [("type", PyStr "NAMain");
                    ("dashboard_data", Scenario.base_dashboard);
                    ("modules", PyList Scenario.all_modules)])
           [] [PyDict [("type", PyStr "NAMain")]]).
  - reflexivity.
  - reflexivity.
Defined.

Lemma round_is_int (v x : pyval) : Py.round v = Ok x -> exists n, x = PyInt n.
Proof.
  unfold Py.round.
  destruct (Py.as_number v) as [[n | f] |]; [| | discriminate].
  - intros H. apply Ok_inj in H. subst x. exists n. reflexivity.
  - destruct f; intros H; try discriminate H; apply Ok_inj in H; subst x;
      eexists; reflexivity.
Qed.

Lemma round_to_float (f : spec_float) (nd : Z) (x : pyval) :
  Py.round_to (PyFloat f) nd = Ok x -> exists y, x = PyFloat y.
Proof.
  unfold Py.round_to. cbn [Py.as_number].
  destruct (Float64.is_finite f && negb (Float64.is_finite (Float64.round_digits f nd)));
    intros H; [discriminate H |].
  apply Ok_inj in H. subst x. eexists. reflexivity.
Qed.

Lemma mul_by_float (v x : pyval) (c : spec_float) :
  Py.mul v (PyFloat c) = Ok x ->
  exists n y, Py.as_number v = Some n /\ x = PyFloat y.
Proof.
  unfold Py.mul. cbn [Py.as_number].
  destruct (Py.as_number v) as [[n | f] |]; [| | discriminate].
  - intros H. apply bind_Ok_inv in H as (fx & _ & H). cbn [mbind result_bind Py.to_float] in H.
    apply Ok_inj in H. subst x. eexists _, _. split; reflexivity.
  - intros H. cbn [mbind result_bind Py.to_float] in H.
    apply Ok_inj in H. subst x. eexists _, _. split; reflexivity.
Qed.

Lemma mm_to_in_result (v x : pyval) :
  mm_to_in v = Ok x ->
  (v = PyNone /\ x = PyNone)
  \/ exists n y, Py.as_number v = Some n /\ x = PyFloat y.
Proof.
  unfold mm_to_in. intros H.
  destruct v;
    [ apply Ok_inj in H; subst x; left; split; reflexivity | .. ];
    (right; apply bind_Ok_inv in H as (z & Hz & H);
     apply mul_by_float in Hz as (number & y & Hnumber & ->);
     apply round_to_float in H as (y' & ->);
     exists number, y'; split; [exact Hnumber | reflexivity]).
Qed.

Lemma kmh_to_mph_result (v x : pyval) :
  kmh_to_mph v = Ok x ->
  (v = PyNone /\ x = PyNone)
  \/ exists n y, Py.as_number v = Some n /\ x = PyFloat y.
Proof.
  unfold kmh_to_mph. intros H.
  destruct v;
    [ apply Ok_inj in H; subst x; left; split; reflexivity | .. ];
    (right; apply bind_Ok_inv in H as (z & Hz & H);
     apply mul_by_float in Hz as (number & y & Hnumber & ->);
     apply round_to_float in H as (y' & ->);
     exists number, y'; split; [exact Hnumber | reflexivity]).
Qed.

(** X7.  In a forecast reading the temperatures and the rain chance
    are integers, the rain volume is a float (or [None] for a JSON null),
    and sunrise and sunset are strings: the numeric forecast fields are
    never published with decimals they did not get from rounding. *)
Theorem forecast_field_types (E : env) (w w' : world) (forecast : gmap string pyval)
    (Hrun : get_forecast3 E w = (Ok forecast, w')) :
  (exists high low chance,
     forecast !! "forecast_high" = Some (PyInt high)
     /\ forecast !! "forecast_low" = Some (PyInt low)
     /\ forecast !! "forecast_rain_chance" = Some (PyInt chance))
  /\ (forecast !! "forecast_rain_in" = Some PyNone
      \/ exists volume, forecast !! "forecast_rain_in" = Some (PyFloat volume))
  /\ (exists sunrise sunset,
        forecast !! "sunrise" = Some (PyStr sunrise)
        /\ forecast !! "sunset" = Some (PyStr sunset)).
Proof.
  apply get_forecast3_inv in Hrun as (r & data & _ & _ & Hread).
  split; [| split; [| exact (forecast_reading_sun _ _ _ Hread)]].
  - unfold forecast_reading in Hread.
    apply bind_Ok_inv in Hread as (daily & _ & Hread).
    apply bind_Ok_inv in Hread as (today & _ & Hread).
    apply bind_Ok_inv in Hread as (high & Hhigh & Hread).
    apply bind_Ok_inv in Hread as (low & Hlow & Hread).
    apply bind_Ok_inv in Hread as (humidity & _ & Hread).
    apply bind_Ok_inv in Hread as (volume & _ & Hread).
    apply bind_Ok_inv in Hread as (chance & Hchance & Hread).
    apply bind_Ok_inv in Hread as (sunrise & _ & Hread).
    apply bind_Ok_inv in Hread as (sunset & _ & Hread).
    apply Ok_inj in Hread. subst forecast.
    invert_binds Hhigh. invert_binds Hlow. invert_binds Hchance.
    apply round_is_int in Hhigh as (h & ->). apply round_is_int in Hlow as (l & ->).
    apply round_is_int in Hchance as (c & ->).
    exists h, l, c. repeat split; vm_compute; reflexivity.
  - unfold forecast_reading in Hread.
    apply bind_Ok_inv in Hread as (daily & _ & Hread).
    apply bind_Ok_inv in Hread as (today & _ & Hread).
    apply bind_Ok_inv in Hread as (high & _ & Hread).
    apply bind_Ok_inv in Hread as (low & _ & Hread).
    apply bind_Ok_inv in Hread as (humidity & _ & Hread).
    apply bind_Ok_inv in Hread as (volume & Hvolume & Hread).
    apply bind_Ok_inv in Hread as (chance & _ & Hread).
    apply bind_Ok_inv in Hread as (sunrise & _ & Hread).
    apply bind_Ok_inv in Hread as (sunset & _ & Hread).
    apply Ok_inj in Hread. subst forecast.
    apply bind_Ok_inv in Hvolume as (mm & _ & Hvolume).
    apply mm_to_in_result in Hvolume as [[_ ->] | (n & y & _ & ->)].
    + left. vm_compute. reflexivity.
    + right. exists y. vm_compute. reflexivity.
Qed.

Lemma forecast_field_types_witness :
  exists high low chance,
    Scenario.forecast !! "forecast_high" = Some (PyInt high)
    /\ Scenario.forecast !! "forecast_low" = Some (PyInt low)
    /\ Scenario.forecast !! "forecast_rain_chance" = Some (PyInt chance).
Proof.
  refine (proj1 (forecast_field_types Scenario.home Scenario.after_station
                   Scenario.after_forecast Scenario.forecast _)).
  vm_compute. reflexivity.
Defined.

(** X8.  A forecast day must carry [temp], [humidity], [sunrise] and
    [sunset]: when the first day lacks one of them (or is not an object)
    no forecast is returned.  Only [rain] and [pop] may be missing. *)
Theorem forecast_required_fields (E : env) (w w' : world) (forecast : gmap string pyval)
    (r : response) (data today : pyval)
    (Hrun : get_forecast3 E w = (Ok forecast, w'))
    (Hreply : http E (sent w) (forecast_request E) = Replied r)
    (Hbody : body r = Some data)
    (Htoday : (daily ← Py.getitem data "daily"; Py.first daily) = Ok today) :
  exists d,
    today = PyDict d
    /\ forall key, In key required_today -> exists v, Py.assoc key d = Some v.
Proof.
  apply get_forecast3_inv in Hrun as (r' & data' & Hreply' & Hbody' & Hread).
  rewrite Hreply in Hreply'. inversion Hreply'. subst r'.
  rewrite Hbody in Hbody'. inversion Hbody'. subst data'.
  unfold forecast_reading in Hread.
  apply bind_Ok_inv in Hread as (daily & Hdaily & Hread).
  apply bind_Ok_inv in Hread as (today' & Hfirst & Hread).
  rewrite Hdaily in Htoday. cbn [mbind result_bind] in Htoday.
  rewrite Hfirst in Htoday. apply Ok_inj in Htoday. subst today'.
  apply bind_Ok_inv in Hread as (high & Hhigh & Hread).
  apply bind_Ok_inv in Hread as (low & _ & Hread).
  apply bind_Ok_inv in Hread as (humidity & Hhumidity & Hread).
  apply bind_Ok_inv in Hread as (volume & _ & Hread).
  apply bind_Ok_inv in Hread as (chance & _ & Hread).
  apply bind_Ok_inv in Hread as (sunrise & Hsunrise & Hread).
  apply bind_Ok_inv in Hread as (sunset & Hsunset & _).
  apply bind_Ok_inv in Hhigh as (temp & Htemp & _).
  apply bind_Ok_inv in Hsunrise as (rise & Hrise & _).
  apply bind_Ok_inv in Hsunset as (set & Hset & _).
  destruct today as [| | | | | | d]; try discriminate Htemp.
  exists d. split; [reflexivity |].
  unfold Py.getitem in Htemp, Hhumidity, Hrise, Hset.
  intros key Hin. cbn [In required_today] in Hin.
  destruct Hin as [<- | [<- | [<- | [<- | []]]]].
  - destruct (Py.assoc "temp" d); [eexists; reflexivity | discriminate Htemp].
  - destruct (Py.assoc "humidity" d); [eexists; reflexivity | discriminate Hhumidity].
  - destruct (Py.assoc "sunrise" d); [eexists; reflexivity | discriminate Hrise].
  - destruct (Py.assoc "sunset" d); [eexists; reflexivity | discriminate Hset].
Qed.

Lemma forecast_required_fields_witness :
  exists d,
    PyDict Scenario.today_json = PyDict d
    /\ forall key, In key required_today -> exists v, Py.assoc key d = Some v.
Proof.
  apply (forecast_required_fields Scenario.home Scenario.after_station
           Scenario.after_forecast Scenario.forecast
           (Response 200 (Some Scenario.forecast_json)) Scenario.forecast_json
           (PyDict Scenario.today_json)).
  - vm_compute. reflexivity.
  - reflexivity.
  - reflexivity.
  - reflexivity.
Defined.

(** X17.  An error status ends a read whatever the body holds: the
    station read and the forecast read raise [HTTPError] with the status
    of the answer and return no reading, even when the body is a
    well-formed document. *)
Theorem error_status_ends_read (E : env) (w : world) (token : pyval) (r : response)
    (Herror : 400 <= status_code r < 600) :
  (http E (sent w) (station_request E token) = Replied r ->
   get_weather_data E token w =
     (Raise (HTTPError (status_code r)),
      World (token_file w) (disk_writable w) (stdout w)
        (sent w ++ [station_request E token])))
  /\ (http E (sent w) (forecast_request E) = Replied r ->
      get_forecast3 E w =
        (Raise (HTTPError (status_code r)),
         World (token_file w) (disk_writable w) (stdout w)
           (sent w ++ [forecast_request E]))).
Proof.
  split; intros Hreply.
  - unfold get_weather_data. next. unfold send. cbn [sent stdout token_file disk_writable].
    rewrite Hreply. next. unfold lift. rewrite (raise_for_status_error _ Herror).
    reflexivity.
  - unfold get_forecast3. next. unfold send. cbn [sent stdout token_file disk_writable].
    rewrite Hreply. next. unfold lift. rewrite (raise_for_status_error _ Herror).
    reflexivity.
Qed.

Lemma error_status_ends_read_witness :
  get_weather_data
    (Env Scenario.variables
       (fun _ _ => Replied (Response 503 (Some (Scenario.station_json Scenario.all_modules))))
       (fun _ => 0) (fun _ => "[...]"))
    Scenario.token Scenario.first_run
  = (Raise (HTTPError 503),
     World None true []
       [station_request
          (Env Scenario.variables
             (fun _ _ =>
                Replied (Response 503 (Some (Scenario.station_json Scenario.all_modules))))
             (fun _ => 0) (fun _ => "[...]"))
          Scenario.token]).
Proof.
  refine (proj1 (error_status_ends_read
                   (Env Scenario.variables
                      (fun _ _ =>
                         Replied
                           (Response 503 (Some (Scenario.station_json Scenario.all_modules))))
                      (fun _ => 0) (fun _ => "[...]"))
                   Scenario.first_run Scenario.token
                   (Response 503 (Some (Scenario.station_json Scenario.all_modules))) _) _).
  - simpl. lia.
  - reflexivity.
Defined.

(** ** Conversions and the payload *)

Lemma truediv_float (a b x : pyval) :
  Py.truediv a b = Ok x -> exists y, x = PyFloat y.
Proof.
  unfold Py.truediv.
  destruct (Py.as_number a) as [[m | f] |]; destruct (Py.as_number b) as [[n | g] |];
    try discriminate.
  - destruct (n =? 0); [discriminate |].
    match goal with
    | |- (if ?c then _ else _) = _ -> _ => destruct c; [| discriminate]
    end.
    intros H. apply Ok_inj in H. subst x. eexists. reflexivity.
  - intros H. apply bind_Ok_inv in H as (fx & _ & H). cbn [mbind result_bind Py.to_float] in H.
    destruct (Py.is_zero g); [discriminate H |].
    apply Ok_inj in H. subst x. eexists. reflexivity.
  - cbn [mbind result_bind Py.to_float]. intros H.
    apply bind_Ok_inv in H as (fy & _ & H).
    destruct (Py.is_zero fy); [discriminate H |].
    apply Ok_inj in H. subst x. eexists. reflexivity.
  - cbn [mbind result_bind Py.to_float].
    destruct (Py.is_zero g); [discriminate |].
    intros H. apply Ok_inj in H. subst x. eexists. reflexivity.
Qed.

Lemma add_to_float (f : spec_float) (b x : pyval) :
  Py.add (PyFloat f) b = Ok x -> exists y, x = PyFloat y.
Proof.
  unfold Py.add. cbn [Py.as_number].
  destruct (Py.as_number b) as [[n | g] |].
  - cbn [mbind result_bind Py.to_float]. intros H.
    apply bind_Ok_inv in H as (fy & _ & H).
    apply Ok_inj in H. subst x. eexists. reflexivity.
  - cbn [mbind result_bind Py.to_float]. intros H.
    apply Ok_inj in H. subst x. eexists. reflexivity.
  - discriminate.
Qed.

Lemma c_to_f_result (v x : pyval) :
  c_to_f v = Ok x ->
  (v = PyNone /\ x = PyNone)
  \/ exists n y, Py.as_number v = Some n /\ x = PyFloat y.
Proof.
  unfold c_to_f. intros H.
  destruct v as [| b | n | f | s | l | d];
    [ apply Ok_inj in H; subst x; left; split; reflexivity | .. ];
    right;
    apply bind_Ok_inv in H as (z & Hz & H);
    apply bind_Ok_inv in H as (y & Hy & H);
    apply bind_Ok_inv in H as (a & Ha & H);
    pose proof Hy as Hy';
    apply truediv_float in Hy as (q & ->);
    apply add_to_float in Ha as (q' & ->);
    apply round_to_float in H as (q'' & ->).
  - eexists _, _. split; reflexivity.
  - eexists _, _. split; reflexivity.
  - eexists _, _. split; reflexivity.
  - exfalso. unfold Py.mul in Hz. cbn [Py.as_number Py.repeat_seq] in Hz.
    destruct (2 ^ 63 <=? 9); [discriminate Hz |].
    apply Ok_inj in Hz. subst z. discriminate Hy'.
  - exfalso. unfold Py.mul in Hz. cbn [Py.as_number Py.repeat_seq] in Hz.
    destruct (2 ^ 63 <=? 9); [discriminate Hz |].
    apply Ok_inj in Hz. subst z. discriminate Hy'.
  - exfalso. discriminate Hz.
Qed.

(** X9.  A unit conversion that returns gives [None] for [None] and a
    float for a number (an [int], a [bool] or a [float]); for any other
    value it raises.  It never returns an integer, text or a list. *)
Theorem conversions_return_floats (conv : pyval -> result pyval) (v x : pyval)
    (Hconv : In conv [c_to_f; mm_to_in; kmh_to_mph])
    (Hrun : conv v = Ok x) :
  (v = PyNone /\ x = PyNone)
  \/ exists n y, Py.as_number v = Some n /\ x = PyFloat y.
Proof.
  destruct Hconv as [<- | [<- | [<- | []]]].
  - exact (c_to_f_result v x Hrun).
  - exact (mm_to_in_result v x Hrun).
  - exact (kmh_to_mph_result v x Hrun).
Qed.

Lemma conversions_return_floats_witness :
  (PyBool true = PyNone /\ PyFloat (Float64.of_decimal 338 (-1)) = PyNone)
  \/ exists n y,
       Py.as_number (PyBool true) = Some n
       /\ PyFloat (Float64.of_decimal 338 (-1)) = PyFloat y.
Proof.
  apply (conversions_return_floats c_to_f (PyBool true)
           (PyFloat (Float64.of_decimal 338 (-1)))).
  - left. reflexivity.
  - vm_compute. reflexivity.
Defined.

Lemma air_quality_result (v : pyval) (a : string) :
  get_air_quality_status v = Ok a ->
  (v = PyNone /\ a = "Unknown")
  \/ ((exists n, Py.as_number v = Some n) /\ In a ["Good"; "Moderate"; "Poor"]).
Proof.
  unfold get_air_quality_status, Py.lt. intros H.
  destruct v as [| b | n | f | s | l | d];
    [ apply Ok_inj in H; subst a; left; split; reflexivity | .. ];
    cbn [Py.as_number] in H; try discriminate H;
    right; (split; [eexists; reflexivity |]);
    apply bind_Ok_inv in H as ([|] & _ & H);
    try (apply Ok_inj in H; subst a; left; reflexivity);
    apply bind_Ok_inv in H as ([|] & _ & H);
    apply Ok_inj in H; subst a; cbn [In]; auto.
Qed.

(** What the payload takes from the data besides the fields built with
    [safe]. *)
Lemma merge_variables_rest (E : env) (data payload : gmap string pyval) :
  merge_variables E data = Ok payload ->
  (exists v a,
     data !! "co2" = Some v /\ get_air_quality_status v = Ok a
     /\ payload !! "air_quality" = Some (PyStr a))
  /\ (exists v, data !! "sunrise" = Some v /\ payload !! "sunrise" = Some v)
  /\ (exists v, data !! "sunset" = Some v /\ payload !! "sunset" = Some v)
  /\ (exists m, message E data = Ok m /\ payload !! "message" = Some (PyStr m)).
Proof.
  unfold merge_variables, plain. intros H. invert_binds H.
  apply Ok_inj in H. subst payload.
  unfold subscript in *.
  destruct (data !! "co2") as [co2 |]; [| discriminate].
  destruct (data !! "sunrise") as [sunrise |]; [| discriminate].
  destruct (data !! "sunset") as [sunset |]; [| discriminate].
  repeat match goal with
         | Hs : Ok _ = Ok _ |- _ => apply Ok_inj in Hs; subst
         end.
  split; [| split; [| split]].
  - eexists _, _. split; [reflexivity | split; [eassumption | vm_compute; reflexivity]].
  - eexists. split; [reflexivity | vm_compute; reflexivity].
  - eexists. split; [reflexivity | vm_compute; reflexivity].
  - eexists. split; [eassumption | vm_compute; reflexivity].
Qed.

(** X10.  A payload is built only when every key of the station and
    forecast readings is in the data: with one of the twenty keys missing
    [push_to_terminal] raises before anything is sent or printed. *)
Theorem missing_key_stops_publishing (E : env) (data : gmap string pyval) (w : world)
    (key : string)
    (Hkey : In key required_keys)
    (Hmissing : data !! key = None) :
  exists e, push_to_terminal E data w = (Raise e, w).
Proof.
  destruct (merge_variables E data) as [payload | e] eqn:Hpayload.
  - exfalso.
    pose proof (merge_variables_fields E _ _ Hpayload) as Hfields.
    destruct (merge_variables_rest E _ _ Hpayload)
      as (_ & (rise & Hrise & _) & (set & Hset & _) & _).
    assert (Hshown : forall field conv suffix,
              In (field, key, conv, suffix) display_fields -> False).
    { intros field conv suffix Hin.
      destruct (Hfields _ _ _ _ Hin) as (s & Hs & _).
      apply converted_inv in Hs as (v & x & Hv & _).
      rewrite Hmissing in Hv. discriminate Hv. }
    cbn [In required_keys station_keys forecast_keys app] in Hkey.
    repeat (destruct Hkey as [<- | Hkey];
            [first [ rewrite Hmissing in Hrise; discriminate Hrise
                   | rewrite Hmissing in Hset; discriminate Hset
                   | eapply Hshown; cbn [In display_fields];
                     repeat first [left; reflexivity | right] ] |]).
    exact Hkey.
  - exists e. unfold push_to_terminal. next. unfold lift. rewrite Hpayload. reflexivity.
Qed.

Lemma missing_key_stops_publishing_witness :
  exists e,
    push_to_terminal Scenario.home Scenario.reading Scenario.first_run
    = (Raise e, Scenario.first_run).
Proof.
  apply (missing_key_stops_publishing Scenario.home Scenario.reading Scenario.first_run
           "sunrise").
  - cbn [In required_keys station_keys forecast_keys app]. do 18 right. left. reflexivity.
  - vm_compute. reflexivity.
Defined.

(** X11.  A payload is built only when the keys that go through
    arithmetic (the temperatures, the rain sums, the wind speeds and the
    CO2 level) hold [None] or a number: a reading that carries text or a
    list there is not published in part, it fails as a whole. *)
Theorem payload_needs_numbers (E : env) (data payload : gmap string pyval) (key : string)
    (Hrun : merge_variables E data = Ok payload)
    (Hkey : In key numeric_keys) :
  exists v,
    data !! key = Some v
    /\ (v = PyNone \/ exists n, Py.as_number v = Some n).
Proof.
  pose proof (merge_variables_fields E _ _ Hrun) as Hfields.
  destruct (merge_variables_rest E _ _ Hrun) as ((co2 & a & Hco2 & Ha & _) & _).
  assert (Hshown : forall field conv suffix,
            In (field, key, conv, suffix) display_fields ->
            In conv [c_to_f; mm_to_in; kmh_to_mph] ->
            exists v, data !! key = Some v
                      /\ (v = PyNone \/ exists n, Py.as_number v = Some n)).
  { intros field conv suffix Hin Hconv.
    destruct (Hfields _ _ _ _ Hin) as (s & Hs & _).
    apply converted_inv in Hs as (v & x & Hv & Hx & _).
    exists v. split; [exact Hv |].
    destruct Hconv as [<- | [<- | [<- | []]]].
    - apply c_to_f_result in Hx as [[-> _] | (n & _ & Hn & _)]; [left | right; exists n]; auto.
    - apply mm_to_in_result in Hx as [[-> _] | (n & _ & Hn & _)]; [left | right; exists n]; auto.
    - apply kmh_to_mph_result in Hx as [[-> _] | (n & _ & Hn & _)];
        [left | right; exists n]; auto. }
  cbn [In numeric_keys] in Hkey.
  destruct Hkey as [<- | [<- | [<- | [<- | [<- | [<- | [<- | []]]]]]]].
  - apply (Hshown "indoor_temp" c_to_f "°F"); cbn [In display_fields]; auto.
  - apply (Hshown "outdoor_temp" c_to_f "°F"); cbn [In display_fields]; auto.
  - exists co2. split; [exact Hco2 |].
    apply air_quality_result in Ha as [[-> _] | [Hn _]]; [left; reflexivity | right; exact Hn].
  - apply (Hshown "rain_1h" mm_to_in " in"); cbn [In display_fields]; auto 20.
  - apply (Hshown "rain_24h" mm_to_in " in"); cbn [In display_fields]; auto 20.
  - apply (Hshown "wind_speed" kmh_to_mph " mph"); cbn [In display_fields]; auto 20.
  - apply (Hshown "gust_speed" kmh_to_mph " mph"); cbn [In display_fields]; auto 20.
Qed.

Lemma payload_needs_numbers_witness :
  exists v,
    combine Scenario.bare_reading Scenario.forecast !! "co2" = Some v
    /\ (v = PyNone \/ exists n, Py.as_number v = Some n).
Proof.
  apply (payload_needs_numbers Scenario.bare
           (combine Scenario.bare_reading Scenario.forecast) Scenario.bare_payload "co2").
  - vm_compute. reflexivity.
  - cbn [In numeric_keys]. do 2 right. left. reflexivity.
Defined.

(** X12.  The published air quality is "Unknown" exactly when the CO2
    level is absent, and otherwise one of "Good", "Moderate" and "Poor". *)
Theorem air_quality_field (E : env) (data payload : gmap string pyval)
    (Hrun : merge_variables E data = Ok payload) :
  exists v a,
    data !! "co2" = Some v
    /\ payload !! "air_quality" = Some (PyStr a)
    /\ (v = PyNone <-> a = "Unknown")
    /\ In a ["Unknown"; "Good"; "Moderate"; "Poor"].
Proof.
  destruct (merge_variables_rest E _ _ Hrun) as ((v & a & Hv & Ha & Hfield) & _).
  exists v, a. split; [exact Hv | split; [exact Hfield |]].
  apply air_quality_result in Ha as [[-> ->] | [(n & Hn) Hin]].
  - split; [split; reflexivity | left; reflexivity].
  - split; [| right; exact Hin].
    split.
    + intros ->. discriminate Hn.
    + intros ->. cbn [In] in Hin. destruct Hin as [H | [H | [H | []]]]; discriminate H.
Qed.

Lemma air_quality_field_witness :
  exists v a,
    combine Scenario.bare_reading Scenario.forecast !! "co2" = Some v
    /\ Scenario.bare_payload !! "air_quality" = Some (PyStr a)
    /\ (v = PyNone <-> a = "Unknown")
    /\ In a ["Unknown"; "Good"; "Moderate"; "Poor"].
Proof.
  apply (air_quality_field Scenario.bare).
  vm_compute. reflexivity.
Defined.


(** ** The clock *)

(** X14.  Sunrise and sunset are shown on the 12-hour clock: the hour
    after midnight and the hour after noon read 12, never 0, the first
    with AM and the second with PM, in whatever time zone the host is. *)
Theorem midnight_and_noon_read_twelve (E : env) (t minute : Z)
    (Htime_t : - 2 ^ 63 <= t < 2 ^ 63)
    (Hyears : -62135510400 <= t + utc_offset E t <= 253402300799)
    (Hminute : 0 <= minute < 60) :
  (((t + utc_offset E t) mod 86400) / 60 = minute ->
   format_unix_time E (PyInt t) = Ok ("12:" +:+ two_digits minute +:+ " AM"))
  /\ (((t + utc_offset E t) mod 86400) / 60 = 720 + minute ->
      format_unix_time E (PyInt t) = Ok ("12:" +:+ two_digits minute +:+ " PM")).
Proof.
  assert (Hrun : format_unix_time E (PyInt t) = Ok (strftime_I_M_p (t + utc_offset E t))).
  { unfold format_unix_time, timestamp_seconds. cbn [Py.as_number mbind result_bind].
    replace (t <? - 2 ^ 63) with false by (symmetry; apply Z.ltb_ge; lia).
    replace (2 ^ 63 <=? t) with false by (symmetry; apply Z.leb_gt; lia).
    cbn [orb].
    replace (t + utc_offset E t <? -62135510400) with false
      by (symmetry; apply Z.ltb_ge; lia).
    replace (253402300799 <? t + utc_offset E t) with false
      by (symmetry; apply Z.ltb_ge; lia).
    reflexivity. }
  rewrite Hrun. unfold strftime_I_M_p.
  set (local := t + utc_offset E t).
  split; intros Hclock.
  - assert (Hhour : (local mod 86400) / 3600 = 0)
      by (clear Hrun; Z.div_mod_to_equations; lia).
    assert (Hmin : (local mod 3600) / 60 = minute)
      by (clear Hrun; Z.div_mod_to_equations; lia).
    rewrite Hhour, Hmin. reflexivity.
  - assert (Hhour : (local mod 86400) / 3600 = 12)
      by (clear Hrun; Z.div_mod_to_equations; lia).
    assert (Hmin : (local mod 3600) / 60 = minute)
      by (clear Hrun; Z.div_mod_to_equations; lia).
    rewrite Hhour, Hmin. reflexivity.
Qed.

Lemma midnight_and_noon_read_twelve_witness :
  format_unix_time Scenario.home (PyInt 43500) = Ok "12:05 PM".
Proof.
  refine (proj2 (midnight_and_noon_read_twelve Scenario.home 43500 5 _ _ _) _).
  - simpl. lia.
  - simpl. lia.
  - lia.
  - reflexivity.
Defined.

(** ** The whole run *)

Lemma get_weather_data_world (E : env) (token : pyval) (w : world) :
  exists out,
    get_weather_data E token w =
      (out, World (token_file w) (disk_writable w) (stdout w)
              (sent w ++ [station_request E token])).
Proof.
  unfold get_weather_data. next. unfold send. cbn [sent stdout token_file disk_writable].
  destruct (http E (sent w) (station_request E token)) as [r |]; [| eexists; reflexivity].
  next. unfold lift. destruct (raise_for_status r) as [[] | e]; [| eexists; reflexivity].
  next. destruct (response_json r) as [data | e]; eexists; reflexivity.
Qed.

Lemma get_forecast3_world (E : env) (w : world) :
  exists out,
    get_forecast3 E w =
      (out, World (token_file w) (disk_writable w) (stdout w)
              (sent w ++ [forecast_request E])).
Proof.
  unfold get_forecast3. next. unfold send. cbn [sent stdout token_file disk_writable].
  destruct (http E (sent w) (forecast_request E)) as [r |]; [| eexists; reflexivity].
  next. unfold lift. destruct (raise_for_status r) as [[] | e]; [| eexists; reflexivity].
  next. destruct (response_json r) as [data | e]; eexists; reflexivity.
Qed.




Lemma token_traces_form (E : env) (refresh_token : pyval) (requests : list request)
    (q : request) :
  In requests (token_traces E refresh_token) -> In q requests -> json q = None.
Proof.
  intros Hin Hq. cbn [In token_traces] in Hin.
  destruct Hin as [<- | [<- | [<- | [<- | []]]]]; cbn [In] in Hq.
  - destruct Hq.
  - destruct Hq as [<- | []]. reflexivity.
  - destruct Hq as [<- | []]. reflexivity.
  - destruct Hq as [<- | [<- | []]]; reflexivity.
Qed.

(** X16.  Nothing is published in part: every request with a JSON body
    that a run adds is the webhook request of a payload built from a
    station reading and a forecast reading that were both obtained, with
    a token that was obtained.  When any earlier step raises, no webhook
    request is sent. *)
Theorem publishes_only_complete (E : env) (w : world) (q : request)
    (Hsent : In q (sent (snd (main E w))))
    (Hjson : json q <> None) :
  In q (sent w)
  \/ exists token netatmo forecast payload w1 w2 w3,
       get_access_token E w = (Ok token, w1)
       /\ get_weather_data E token w1 = (Ok netatmo, w2)
       /\ get_forecast3 E w2 = (Ok forecast, w3)
       /\ merge_variables E (combine netatmo forecast) = Ok payload
       /\ q = webhook_request E payload.
Proof.
  unfold main in Hsent. unfold bind at 1 in Hsent.
  destruct (get_access_token_trace E w)
    as (out & w1 & refresh_token & requests & lines & Htoken & Hsent1 & Htraces & _).
  rewrite Htoken in Hsent.
  assert (Hold1 : In q (sent w1) -> In q (sent w)).
  { rewrite Hsent1. intros Hin. apply in_app_or in Hin as [Hin | Hin]; [exact Hin |].
    exfalso. apply Hjson. exact (token_traces_form E _ _ _ Htraces Hin). }
  destruct out as [token | e]; [| left; apply Hold1; exact Hsent].
  unfold bind at 1 in Hsent.
  destruct (get_weather_data_world E token w1) as (out & Hstation).
  rewrite Hstation in Hsent.
  set (w2 := World (token_file w1) (disk_writable w1) (stdout w1)
               (sent w1 ++ [station_request E token])) in *.
  assert (Hold2 : In q (sent w2) -> In q (sent w)).
  { subst w2. cbn [sent]. intros Hin. apply in_app_or in Hin as [Hin | [<- | []]].
    - apply Hold1. exact Hin.
    - exfalso. apply Hjson. reflexivity. }
  destruct out as [netatmo | e]; [| left; apply Hold2; exact Hsent].
  unfold bind at 1 in Hsent.
  destruct (get_forecast3_world E w2) as (out & Hforecast).
  rewrite Hforecast in Hsent.
  set (w3 := World (token_file w2) (disk_writable w2) (stdout w2)
               (sent w2 ++ [forecast_request E])) in *.
  assert (Hold3 : In q (sent w3) -> In q (sent w)).
  { subst w3. cbn [sent]. intros Hin. apply in_app_or in Hin as [Hin | [<- | []]].
    - apply Hold2. exact Hin.
    - exfalso. apply Hjson. reflexivity. }
  destruct out as [forecast | e]; [| left; apply Hold3; exact Hsent].
  destruct (push_to_terminal_sends E (combine netatmo forecast) w3)
    as [[_ Hnone] | (payload & Hpayload & Hpushed & _)].
  - left. apply Hold3. rewrite <- Hnone. exact Hsent.
  - rewrite Hpushed in Hsent. apply in_app_or in Hsent as [Hin | [<- | []]].
    + left. apply Hold3. exact Hin.
    + right. exists token, netatmo, forecast, payload, w1, w2, w3.
      split; [exact Htoken | split; [exact Hstation | split; [exact Hforecast |]]].
      split; [exact Hpayload | reflexivity].
Qed.

Lemma publishes_only_complete_witness :
  In (webhook_request Scenario.bare Scenario.bare_payload) (sent Scenario.first_run)
  \/ exists token netatmo forecast payload w1 w2 w3,
       get_access_token Scenario.bare Scenario.first_run = (Ok token, w1)
       /\ get_weather_data Scenario.bare token w1 = (Ok netatmo, w2)
       /\ get_forecast3 Scenario.bare w2 = (Ok forecast, w3)
       /\ merge_variables Scenario.bare (combine netatmo forecast) = Ok payload
       /\ webhook_request Scenario.bare Scenario.bare_payload
          = webhook_request Scenario.bare payload.
Proof.
  apply (publishes_only_complete Scenario.bare Scenario.first_run
           (webhook_request Scenario.bare Scenario.bare_payload)).
  - assert (Hmain : main Scenario.bare Scenario.first_run =
                      (Ok tt,
                       World (Some (FileJson Scenario.fresh_tokens)) true
                         [Line "🔐 Using password login...";
                          LineWith "✅ Sent to Terminal:" Scenario.bare_payload]
                         [password_request Scenario.bare;
                          station_request Scenario.bare Scenario.token;
                          forecast_request Scenario.bare;
                          webhook_request Scenario.bare Scenario.bare_payload]))
      by (vm_compute; reflexivity).
    rewrite Hmain. cbn [snd sent In]. do 3 right. left. reflexivity.
  - discriminate.
Defined.
